(** * restreamer-automate, v3/main.py

    A shallow embedding of the script: the login and refresh calls, the
    command dispatcher, the two composite stream operations and the
    start-up code with its polling loop.

    Python values that come out of [json.load] / [response.json()] are
    modelled by [json]; effects (console output, HTTP requests, sleeping,
    reading the console, the scheduler's job table, the one shared
    [config] dict) are threaded through a state-and-exception monad [M]
    whose state is [world]. *)

From Stdlib Require Import String Ascii List ZArith Lia Bool.
From Stdlib Require Import Floats.SpecFloat.
Import ListNotations.
Open Scope string_scope.
Open Scope Z_scope.

(** ** Python values *)

#[local] Set Warnings "-register-all".

(** What [json.load] produces: [None], [bool], [int], [float], [str],
    [list], [dict].  A dict is kept as its items in insertion order. *)
Inductive json : Type :=
| JNull
| JBool (b : bool)
| JInt (z : Z)
| JFloat (f : spec_float)
| JStr (s : string)
| JArr (l : list json)
| JObj (o : list (string * json)).

Definition dict := list (string * json).

(** Python truth value, as tested by [if x:]. *)
Definition truthy (v : json) : bool :=
  match v with
  | JNull => false
  | JBool b => b
  | JInt z => negb (z =? 0)
  | JFloat (S754_zero _) => false
  | JFloat _ => true
  | JStr s => negb (s =? "")%string
  | JArr l => match l with [] => false | _ => true end
  | JObj o => match o with [] => false | _ => true end
  end.

Fixpoint dict_lookup (k : string) (o : dict) : option json :=
  match o with
  | [] => None
  | (k', v) :: rest => if (k' =? k)%string then Some v else dict_lookup k rest
  end.

(** [d[k] = v] on a dict: overwrite in place, or append a new item. *)
Fixpoint dict_set (k : string) (v : json) (o : dict) : dict :=
  match o with
  | [] => [(k, v)]
  | (k', v') :: rest =>
      if (k' =? k)%string then (k', v) :: rest else (k', v') :: dict_set k v rest
  end.

(** ** Exceptions *)

Inductive exn : Type :=
| RequestException (msg : string)   (* ConnectionError, Timeout, InvalidURL, ... *)
| HTTPError (status : Z)            (* raised by raise_for_status *)
| RequestsJSONDecodeError           (* requests.exceptions.JSONDecodeError *)
| JSONDecodeError                   (* json.JSONDecodeError *)
| KeyError (key : string)
| AttributeError (attr : string)
| TypeError
| EOFError
| ScheduleValueError
| SystemExit (code : option Z)
| UnicodeEncodeError               (* str.encode on text the codec lacks *)
| UnicodeDecodeError               (* bytes.decode on bytes that are no text *)
| ValueError                       (* e.g. an integer literal too long for int() *)
| OtherError (class_name : string).

(** [isinstance(e, requests.exceptions.RequestException)]. *)
Definition is_RequestException (e : exn) : bool :=
  match e with
  | RequestException _ | HTTPError _ | RequestsJSONDecodeError => true
  | _ => false
  end.

(** [isinstance(e, json.JSONDecodeError)]. *)
Definition is_JSONDecodeError (e : exn) : bool :=
  match e with
  | RequestsJSONDecodeError | JSONDecodeError => true
  | _ => false
  end.

(** ** The interpreter and the libraries the script imports

    What the script takes from outside its own text: how [str()] renders
    a value that is not a string and an exception, which exception class
    [response.json()] raises on an undecodable body (the requests class,
    which is also a [RequestException], from requests 2.27 on; the
    standard-library class before), which arguments
    [schedule ... .at()] accepts, and what [str.capitalize()] makes of
    text that is not all ASCII. *)
Record runtime : Type := {
  repr_value : json -> string;
  str_exn : exn -> string;
  requests_ge_2_27 : bool;
  at_accepts : string -> bool;
  capitalize_unicode : string -> string
}.

(** ** The world *)

(** How a call of [requests.post] or [requests.put] ends, as the script
    sees it.
    - [ConnFail]: the call raises a [RequestException] (connection
      refused, timeout, invalid URL or header, ...); there is no
      response.
    - [Response status body]: the call returns a response with that
      status; [body] is what [response.json()] does on it: [Some j] when
      it returns [j], [None] when it raises the JSON decode error.
    - [CallRaises e]: the call raises [e], an exception of another
      class; [UnicodeEncodeError] when a header value holds a character
      outside latin-1.
    - [JsonRaises status e]: the call returns a response with that
      status on which [response.json()] raises [e], an exception other
      than the JSON decode error; [ValueError] when the body holds an
      integer of more digits than [int()] converts. *)
Inductive http_result : Type :=
| ConnFail (msg : string)
| Response (status : Z) (body : option json)
| CallRaises (e : exn)
| JsonRaises (status : Z) (e : exn).

(** What [response.json()] does on a response. *)
Inductive decoding : Type :=
| Decodes (body : option json)
| Refuses (e : exn).

(** A response object: its status and its body as [response.json()]
    reads it. *)
Definition response : Type := (Z * decoding)%type.

Inductive event : Type :=
| Print (line : string)
| HttpPost (url : string) (body : json)
| HttpPut (url : string) (headers : list (string * string)) (body : json)
| Sleep (seconds : Z)
| Prompt (text : string).

(** A scheduled job: the function and the arguments bound by [.do(...)].
    The two stream jobs hold a reference to the shared [config] dict; the
    refresh job holds the three values read from it at start-up. *)
Inductive job : Type :=
| JobConnect
| JobDisconnect
| JobRefresh (server_address username password : json).

Record world : Type := {
  trace : list event;          (* what the process did, oldest first *)
  server : nat -> http_result; (* how the n-th call of requests ends *)
  requests_made : nat;
  wall_clock : nat -> string;  (* the n-th reading of time.strftime *)
  clock_reads : nat;
  config : json;               (* the object bound to [config] *)
  jobs : list job              (* schedule's default scheduler *)
}.

Definition with_trace (w : world) (t : list event) : world :=
  {| trace := t; server := server w; requests_made := requests_made w;
     wall_clock := wall_clock w; clock_reads := clock_reads w;
     config := config w; jobs := jobs w |}.

Definition with_requests_made (w : world) (n : nat) : world :=
  {| trace := trace w; server := server w; requests_made := n;
     wall_clock := wall_clock w; clock_reads := clock_reads w;
     config := config w; jobs := jobs w |}.

Definition with_clock_reads (w : world) (n : nat) : world :=
  {| trace := trace w; server := server w; requests_made := requests_made w;
     wall_clock := wall_clock w; clock_reads := n;
     config := config w; jobs := jobs w |}.

Definition with_config (w : world) (c : json) : world :=
  {| trace := trace w; server := server w; requests_made := requests_made w;
     wall_clock := wall_clock w; clock_reads := clock_reads w;
     config := c; jobs := jobs w |}.

Definition with_jobs (w : world) (js : list job) : world :=
  {| trace := trace w; server := server w; requests_made := requests_made w;
     wall_clock := wall_clock w; clock_reads := clock_reads w;
     config := config w; jobs := js |}.

(** ** The monad *)

(** [Blocked]: the environment's script of console events ended while the
    process was still running. *)
Inductive outcome (A : Type) : Type :=
| Ok (a : A)
| Raised (e : exn)
| Blocked.
Arguments Ok {A} a.
Arguments Raised {A} e.
Arguments Blocked {A}.

Definition M (A : Type) : Type := world -> outcome A * world.

Definition ret {A} (a : A) : M A := fun w => (Ok a, w).

Definition bind {A B} (m : M A) (k : A -> M B) : M B :=
  fun w =>
    match m w with
    | (Ok a, w') => k a w'
    | (Raised e, w') => (Raised e, w')
    | (Blocked, w') => (Blocked, w')
    end.

Definition raise {A} (e : exn) : M A := fun w => (Raised e, w).

(** [try: body  except ...:] where [handler e] is the first clause whose
    class matches [e], if any. *)
Definition try_except {A} (body : M A) (handler : exn -> option (M A)) : M A :=
  fun w =>
    match body w with
    | (Raised e, w') =>
        match handler e with
        | Some h => h w'
        | None => (Raised e, w')
        end
    | r => r
    end.

Declare Scope py_scope.
Delimit Scope py_scope with py.
Notation "x <- m ;; k" := (bind m (fun x => k))
  (at level 61, m at next level, right associativity) : py_scope.
Notation "m ;; k" := (bind m (fun _ => k))
  (at level 61, right associativity) : py_scope.
Open Scope py_scope.

Definition emit (e : event) : M unit :=
  fun w => (Ok tt, with_trace w (trace w ++ [e])).

Definition print (line : string) : M unit := emit (Print line).

(** ** Strings *)

Definition ascii_lower (c : ascii) : ascii :=
  let n := nat_of_ascii c in
  if andb (Nat.leb 65 n) (Nat.leb n 90) then ascii_of_nat (n + 32) else c.

Definition ascii_upper (c : ascii) : ascii :=
  let n := nat_of_ascii c in
  if andb (Nat.leb 97 n) (Nat.leb n 122) then ascii_of_nat (n - 32) else c.

(** [str.lower()], on ASCII letters; other bytes are kept, and no
    non-ASCII character lower-cases to an ASCII one that the script
    compares with. *)
Fixpoint lower (s : string) : string :=
  match s with
  | EmptyString => EmptyString
  | String c rest => String (ascii_lower c) (lower rest)
  end.

(** [str.capitalize()] on text that is all ASCII. *)
Definition capitalize (s : string) : string :=
  match s with
  | EmptyString => EmptyString
  | String c rest => String (ascii_upper c) (lower rest)
  end.

Fixpoint is_ascii (s : string) : bool :=
  match s with
  | EmptyString => true
  | String c rest => Nat.ltb (nat_of_ascii c) 128 && is_ascii rest
  end.

(** ** The script *)

Section Script.

Variable rt : runtime.

(** [str(v)], as f-strings and [print] apply it. *)
Definition py_str (v : json) : string :=
  match v with
  | JStr s => s
  | _ => repr_value rt v
  end.

(** [d.get(k)]: only a dict has the method. *)
Definition py_get (d : json) (k : string) : M json :=
  match d with
  | JObj o =>
      match dict_lookup k o with
      | Some v => ret v
      | None => ret JNull
      end
  | _ => raise (AttributeError "get")
  end.

(** [d[k]] with a string key. *)
Definition py_getitem (d : json) (k : string) : M json :=
  match d with
  | JObj o =>
      match dict_lookup k o with
      | Some v => ret v
      | None => raise (KeyError k)
      end
  | _ => raise TypeError
  end.

(** [s.capitalize()]. *)
Definition str_capitalize (s : string) : string :=
  if is_ascii s then capitalize s else capitalize_unicode rt s.

(** [v.capitalize()]: only a string has the method. *)
Definition py_capitalize (v : json) : M string :=
  match v with
  | JStr s => ret (str_capitalize s)
  | _ => raise (AttributeError "capitalize")
  end.

(** Subscripting the shared [config] object. *)
Definition config_getitem (k : string) : M json :=
  fun w => py_getitem (config w) k w.

Definition config_get (k : string) : M json :=
  fun w => py_get (config w) k w.

(** [config[k] = v]. *)
Definition config_setitem (k : string) (v : json) : M unit :=
  fun w =>
    match config w with
    | JObj o => (Ok tt, with_config w (JObj (dict_set k v o)))
    | _ => (Raised TypeError, w)
    end.

(** *** requests *)

Definition answer (w : world) : http_result := server w (requests_made w).

Definition http_exchange (request : event) : M response :=
  fun w =>
    let w' := with_requests_made (with_trace w (trace w ++ [request]))
                                 (S (requests_made w)) in
    match answer w with
    | ConnFail msg => (Raised (RequestException msg), w')
    | Response status body => (Ok (status, Decodes body), w')
    | CallRaises e => (Raised e, w')
    | JsonRaises status e => (Ok (status, Refuses e), w')
    end.

Definition requests_post (url : string) (body : json) : M response :=
  http_exchange (HttpPost url body).

Definition requests_put (url : string) (headers : list (string * string))
    (body : json) : M response :=
  http_exchange (HttpPut url headers body).

Definition is_error_status (status : Z) : bool :=
  (400 <=? status) && (status <? 600).

Definition raise_for_status (response : response) : M unit :=
  if is_error_status (fst response) then raise (HTTPError (fst response))
  else ret tt.

Definition json_error : exn :=
  if requests_ge_2_27 rt then RequestsJSONDecodeError else JSONDecodeError.

Definition response_json (response : response) : M json :=
  match snd response with
  | Decodes (Some j) => ret j
  | Decodes None => raise json_error
  | Refuses e => raise e
  end.

(** *** get_access_token (lines 25-59) *)

Definition get_access_token (server_address username password : json) : M json :=
  let login_url := py_str server_address ++ "/api/login" in
  try_except
    (let payload := JObj [("username", username); ("password", password)] in
     response <- requests_post login_url payload ;;
     raise_for_status response ;;
     data <- response_json response ;;
     access_token <- py_get data "access_token" ;;
     if truthy access_token then ret access_token
     else
       print "Error: Access token not found in login response." ;;
       ret JNull)
    (fun e =>
       if is_RequestException e then
         Some (print ("Error during login: " ++ str_exn rt e) ;; ret JNull)
       else if is_JSONDecodeError e then
         Some (print "Error: Could not decode JSON response from login." ;;
               ret JNull)
       else None).

(** *** refresh_access_token (lines 61-96) *)

Definition refresh_access_token (server_address username password : json) : M json :=
  let login_url := py_str server_address ++ "/api/login" in
  try_except
    (let payload := JObj [("username", username); ("password", password)] in
     response <- requests_post login_url payload ;;
     raise_for_status response ;;
     data <- response_json response ;;
     access_token <- py_get data "access_token" ;;
     if truthy access_token then
       print "Successfully refreshed access token." ;;
       ret access_token
     else
       print "Error: Access token not found in refresh response." ;;
       ret JNull)
    (fun e =>
       if is_RequestException e then
         Some (print ("Error during token refresh: " ++ str_exn rt e) ;; ret JNull)
       else if is_JSONDecodeError e then
         Some (print "Error: Could not decode JSON response from token refresh." ;;
               ret JNull)
       else None).

(** *** send_restreamer_command (lines 98-120)

    The function has no [return] statement: it hands [None] back on
    every path that does not raise. *)

Definition process_identifier (process_id : json) (is_snapshot : bool) : string :=
  let ident := "restreamer-ui%3Aingest%3A" ++ py_str process_id in
  if is_snapshot then ident ++ "_snapshot" else ident.

Definition command_url (server_address process_id : json) (is_snapshot : bool)
  : string :=
  py_str server_address ++ "/api/v3/process/"
    ++ process_identifier process_id is_snapshot ++ "/command".

Definition command_headers (authorization_token : json) : list (string * string) :=
  [("Content-Type", "application/json");
   ("Authorization", "Bearer " ++ py_str authorization_token)].

Definition send_restreamer_command
    (server_address process_id authorization_token payload : json)
    (is_snapshot : bool) : M json :=
  let url := command_url server_address process_id is_snapshot in
  let headers := command_headers authorization_token in
  try_except
    (response <- requests_put url headers payload ;;
     raise_for_status response ;;
     verb <- py_getitem payload "command" ;;
     Verb <- py_capitalize verb ;;
     print (Verb ++ " command sent successfully to process '"
              ++ py_str process_id ++ "'. Response:") ;;
     reply <- response_json response ;;
     print (py_str reply))
    (fun e =>
       if is_RequestException e then
         Some (print ("Error sending command to process '"
                        ++ py_str process_id ++ "': " ++ str_exn rt e))
       else if is_JSONDecodeError e then
         Some (print "Error decoding JSON response.")
       else None) ;;
  ret JNull.

(** *** connect_stream, disconnect_stream (lines 122-138)

    Both are always called with the one [config] object, so they read it
    from the world. *)

Definition strftime : M string :=
  fun w => (Ok (wall_clock w (clock_reads w)),
            with_clock_reads w (S (clock_reads w))).

Definition start_payload : json := JObj [("command", JStr "start")].
Definition stop_payload : json := JObj [("command", JStr "stop")].

Definition send_from_config (payload : json) (is_snapshot : bool) : M json :=
  server_address <- config_getitem "server_address" ;;
  process_id <- config_getitem "process_id" ;;
  authorization_token <- config_getitem "authorization_token" ;;
  send_restreamer_command server_address process_id authorization_token
    payload is_snapshot.

Definition connect_stream : M json :=
  now <- strftime ;;
  print ("Connecting stream at " ++ now) ;;
  send_from_config start_payload false ;;
  send_from_config start_payload true ;;
  print "Stream connection initiated." ;;
  ret JNull.

Definition disconnect_stream : M json :=
  now <- strftime ;;
  print ("Disconnecting stream at " ++ now) ;;
  send_from_config stop_payload true ;;
  send_from_config stop_payload false ;;
  print "Stream disconnection initiated." ;;
  ret JNull.

(** *** schedule *)

Definition add_job (j : job) : M unit :=
  fun w => (Ok tt, with_jobs w (jobs w ++ [j])).

(** [schedule.every().day.at(t).do(f, ...)]: [.at] raises before [.do]
    registers anything. *)
Definition schedule_daily_at (t : json) (j : job) : M unit :=
  match t with
  | JStr s => if at_accepts rt s then add_job j else raise ScheduleValueError
  | _ => raise TypeError
  end.

(** A job's return value is dropped by the scheduler. *)
Definition run_job (j : job) : M unit :=
  match j with
  | JobConnect => connect_stream ;; ret tt
  | JobDisconnect => disconnect_stream ;; ret tt
  | JobRefresh server_address username password =>
      refresh_access_token server_address username password ;; ret tt
  end.

Fixpoint run_jobs (js : list job) : M unit :=
  match js with
  | [] => ret tt
  | j :: rest => run_job j ;; run_jobs rest
  end.

Definition pick_jobs (due : list nat) (table : list job) : list job :=
  flat_map (fun i => match nth_error table i with
                     | Some j => [j]
                     | None => []
                     end) due.

(** [schedule.run_pending()]; which jobs are due, and in which order
    they run, is the clock's business: [due] lists them by their position
    in the job table. *)
Definition run_pending (due : list nat) : M unit :=
  fun w => run_jobs (pick_jobs due (jobs w)) w.

(** *** The console *)

Inductive console_read : Type :=
| Line (s : string)
| EndOfInput.

(** One pass of the loop as the environment sees it: the jobs that are
    due when the pass starts, and what the operator types. *)
Record tick : Type := { due : list nat; typed : console_read }.

Definition input (prompt : string) (r : console_read) : M string :=
  emit (Prompt prompt) ;;
  match r with
  | Line s => ret s
  | EndOfInput => raise EOFError
  end.

Definition sleep (seconds : Z) : M unit := emit (Sleep seconds).

Definition blocked {A} : M A := fun w => (Blocked, w).

(** [exit()]. *)
Definition py_exit {A} : M A := raise (SystemExit None).

(** *** load_config (lines 10-23) *)

(** What [open] and [json.load] make of the configuration file:
    [FileMissing] when [open] raises [FileNotFoundError], [FileNotJSON]
    when [json.load] raises [json.JSONDecodeError], [FileJSON content]
    when it returns [content], and [FileUnreadable e] when either raises
    [e], an exception of another class ([UnicodeDecodeError] for bytes
    that are not UTF-8 text, [PermissionError], ...). *)
Inductive config_file : Type :=
| FileMissing
| FileNotJSON
| FileJSON (content : json)
| FileUnreadable (e : exn).

Definition CONFIG_FILE : string := "config.json".

Definition load_config (f : config_file) : M json :=
  match f with
  | FileJSON content => ret content
  | FileMissing =>
      print ("Error: Configuration file '" ++ CONFIG_FILE ++ "' not found.") ;;
      ret JNull
  | FileNotJSON =>
      print ("Error: Could not decode JSON from '" ++ CONFIG_FILE
               ++ "'. Please check the file format.") ;;
      ret JNull
  | FileUnreadable e => raise e
  end.

(** *** The main block (lines 140-199) *)

Definition prompt_text : string :=
  "Enter 'c' to connect, 'd' to disconnect, or 'q' to quit: ".

Definition invalid_input_text : string :=
  "Invalid input. Please enter 'c', 'd', or 'q'.".

Fixpoint main_loop (ticks : list tick) : M unit :=
  match ticks with
  | [] => blocked
  | t :: rest =>
      run_pending (due t) ;;
      sleep 1 ;;
      line <- input prompt_text (typed t) ;;
      let user_input := lower line in
      if (user_input =? "c")%string then
        connect_stream ;; main_loop rest
      else if (user_input =? "d")%string then
        disconnect_stream ;; main_loop rest
      else if (user_input =? "q")%string then
        print "Exiting."
      else if truthy (JStr user_input) then
        print invalid_input_text ;; main_loop rest
      else main_loop rest
  end.

Definition bind_config (c : json) : M unit :=
  fun w => (Ok tt, with_config w c).

Definition startup : M unit :=
  server_address <- config_get "server_address" ;;
  username <- config_get "username" ;;
  password <- config_get "password" ;;
  (if truthy server_address && truthy username && truthy password then
     access_token <- get_access_token server_address username password ;;
     if truthy access_token then
       config_setitem "authorization_token" access_token ;;
       print "Successfully retrieved access token."
     else
       print "Error: Could not retrieve access token. Script will exit." ;;
       py_exit
   else
     print "Error: Missing login credentials in config. Script will exit." ;;
     py_exit) ;;
  connect_time <- config_get "connect_time" ;;
  disconnect_time <- config_get "disconnect_time" ;;
  (if truthy connect_time then
     schedule_daily_at connect_time JobConnect ;;
     print ("Scheduled stream connection for " ++ py_str connect_time
              ++ " daily.")
   else print "Warning: 'connect_time' not found in config file.") ;;
  (if truthy disconnect_time then
     schedule_daily_at disconnect_time JobDisconnect ;;
     print ("Scheduled stream disconnection for " ++ py_str disconnect_time
              ++ " daily.")
   else print "Warning: 'disconnect_time' not found in config file.") ;;
  add_job (JobRefresh server_address username password) ;;
  print "Scheduled token refresh every 10 minutes.".

Definition main (file : config_file) (ticks : list tick) : M unit :=
  loaded <- load_config file ;;
  bind_config loaded ;;
  if truthy loaded then startup ;; main_loop ticks
  else ret tt.

(** The status the interpreter exits with; [None] while it has not. *)
Definition exit_status (r : outcome unit) : option Z :=
  match r with
  | Ok _ => Some 0
  | Raised (SystemExit None) => Some 0
  | Raised (SystemExit (Some code)) => Some code
  | Raised _ => Some 1
  | Blocked => None
  end.

End Script.

(** A fresh process: nothing printed, nothing scheduled, [config] not
    yet bound. *)
Definition boot (srv : nat -> http_result) (clk : nat -> string) : world :=
  {| trace := []; server := srv; requests_made := 0%nat;
     wall_clock := clk; clock_reads := 0%nat; config := JNull; jobs := [] |}.

(** ** Reading a trace *)

Definition is_command (e : event) : bool :=
  match e with HttpPut _ _ _ => true | _ => false end.

Definition is_request (e : event) : bool :=
  match e with HttpPost _ _ | HttpPut _ _ _ => true | _ => false end.

Definition is_print (e : event) : bool :=
  match e with Print _ => true | _ => false end.

(** The command requests in a trace, oldest first. *)
Definition commands (t : list event) : list event := filter is_command t.

(** All HTTP requests in a trace, oldest first. *)
Definition requests (t : list event) : list event := filter is_request t.

(** The [Authorization] header a command request carries. *)
Definition authorization (e : event) : option string :=
  match e with
  | HttpPut _ headers _ =>
      match filter (fun h => (fst h =? "Authorization")%string) headers with
      | h :: _ => Some (snd h)
      | [] => None
      end
  | _ => None
  end.

(** ** The vocabulary of the statements *)

(** *** Worlds and calls *)

(** The value of a dict entry as [.get] reads it. *)
Definition field (k : string) (o : dict) : json :=
  match dict_lookup k o with
  | Some v => v
  | None => JNull
  end.

(** The world after one more HTTP request. *)
Definition sent (w : world) (request : event) : world :=
  with_requests_made (with_trace w (trace w ++ [request])) (S (requests_made w)).

(** The world after one more printed line, and after several. *)
Definition printed (w : world) (line : string) : world :=
  with_trace w (trace w ++ [Print line]).

Definition printed_lines (w : world) (lines : list string) : world :=
  with_trace w (trace w ++ map Print lines).

(** Everything a process did except what it printed. *)
Definition silent_part (t : list event) : list event :=
  filter (fun e => negb (is_print e)) t.

(** Two worlds that differ at most in the lines printed. *)
Definition same_but_prints (w1 w2 : world) : Prop :=
  silent_part (trace w1) = silent_part (trace w2)
  /\ server w1 = server w2
  /\ requests_made w1 = requests_made w2
  /\ wall_clock w1 = wall_clock w2
  /\ clock_reads w1 = clock_reads w2
  /\ config w1 = config w2
  /\ jobs w1 = jobs w2.

(** A line that reports an error. *)
Definition is_error_line (line : string) : bool := prefix "Error" line.

(** A call [m] respects [R] when every world it is run in is related by
    [R] to the world it leaves. *)
Definition respects (R : world -> world -> Prop) {A} (m : M A) : Prop :=
  forall w, R w (snd (m w)).

(** A call that never finds the console script exhausted. *)
Definition unblocked {A} (m : M A) : Prop := forall w, fst (m w) <> Blocked.

(** The parts of the world that outlive a call unchanged. *)
Definition settled (w w' : world) : Prop :=
  config w' = config w /\ jobs w' = jobs w /\ server w' = server w.

Definition keeps {A} (m : M A) : Prop := forall w, settled w (snd (m w)).

(** A call that neither blocks nor disturbs the settled parts. *)
Definition tame {A} (m : M A) : Prop := unblocked m /\ keeps m.

Definition same_config (w w' : world) : Prop := config w' = config w.

Definition same_commands (w w' : world) : Prop :=
  commands (trace w') = commands (trace w).

(** *** Login *)

(** The request both [get_access_token] and [refresh_access_token]
    build. *)
Definition login_request (rt : runtime) (server_address username password : json)
  : event :=
  HttpPost (py_str rt server_address ++ "/api/login")
           (JObj [("username", username); ("password", password)]).

(** What the [except] clauses of a login call make of an exception [e]
    raised in its [try] block, [what] being "login" or "token refresh". *)
Definition login_except (rt : runtime) (what : string) (e : exn) (w1 : world)
  : outcome json * world :=
  if is_RequestException e then
    (Ok JNull, printed w1 ("Error during " ++ what ++ ": " ++ str_exn rt e))
  else if is_JSONDecodeError e then
    (Ok JNull,
     printed w1 ("Error: Could not decode JSON response from " ++ what ++ "."))
  else (Raised e, w1).

(** *** Commands *)

Definition command_payload (verb : string) : json := JObj [("command", JStr verb)].

(** The request [send_restreamer_command] builds. *)
Definition command_request (rt : runtime)
    (server_address process_id authorization_token : json) (verb : string)
    (is_snapshot : bool) : event :=
  HttpPut (command_url rt server_address process_id is_snapshot)
          (command_headers rt authorization_token)
          (command_payload verb).

(** The two lines [send_restreamer_command] prints around an exchange. *)
Definition send_error_line (rt : runtime) (process_id : json) (e : exn) : string :=
  "Error sending command to process '" ++ py_str rt process_id ++ "': "
    ++ str_exn rt e.

Definition send_success_line (rt : runtime) (process_id : json) (verb : string)
  : string :=
  str_capitalize rt verb ++ " command sent successfully to process '"
    ++ py_str rt process_id ++ "'. Response:".

(** What the [except] clauses of [send_restreamer_command] make of an
    exception [e] raised in its [try] block after [lines] were printed. *)
Definition send_except (rt : runtime) (process_id : json) (e : exn)
    (w1 : world) (lines : list string) : outcome json * world :=
  if is_RequestException e then
    (Ok JNull, printed_lines w1 (lines ++ [send_error_line rt process_id e]))
  else if is_JSONDecodeError e then
    (Ok JNull, printed_lines w1 (lines ++ ["Error decoding JSON response."]))
  else (Raised e, printed_lines w1 lines).

(** Percent-encoding of each colon of a text. *)
Fixpoint encode_colons (s : string) : string :=
  match s with
  | EmptyString => EmptyString
  | String c rest =>
      if Ascii.eqb c ":"%char then "%3A" ++ encode_colons rest
      else String c (encode_colons rest)
  end.

Fixpoint has_colon (s : string) : bool :=
  match s with
  | EmptyString => false
  | String c rest => Ascii.eqb c ":"%char || has_colon rest
  end.

(** The process identifier as the interface description words it: each
    colon of [restreamer-ui:ingest:{process_id}] percent-encoded, and
    [_snapshot] appended for the snapshot variant only. *)
Definition encoded_process_id (process_id : string) (is_snapshot : bool) : string :=
  encode_colons ("restreamer-ui:ingest:" ++ process_id)
    ++ (if is_snapshot then "_snapshot" else "").

(** The exceptions the two [except] clauses of the login calls and of
    the dispatcher catch. *)
Definition caught (e : exn) : bool :=
  is_RequestException e || is_JSONDecodeError e.

(** The ways a command call can end that [send_restreamer_command] gets
    through: a response whose body decodes or fails with the JSON decode
    error, or an exception its [except] clauses catch. *)
Definition handled (a : http_result) : bool :=
  match a with
  | ConnFail _ => true
  | Response _ _ => true
  | CallRaises e => caught e
  | JsonRaises status e => is_error_status status || caught e
  end.


(** *** The stream operations *)


(** Two commands in a row, between an opening and a closing line: the
    shape shared by [connect_stream] and [disconnect_stream]. *)
Definition stream_operation (rt : runtime) (opening closing verb : string)
    (first second : bool) : M json :=
  now <- strftime ;;
  print (opening ++ now) ;;
  send_from_config rt (command_payload verb) first ;;
  send_from_config rt (command_payload verb) second ;;
  print closing ;;
  ret JNull.


(** *** Start-up and the loop *)

(** The three values the start-up code asks of [config]. *)
Definition has_credentials (o : dict) : bool :=
  truthy (field "server_address" o) && truthy (field "username" o)
  && truthy (field "password" o).

Definition missing_credentials_line : string :=
  "Error: Missing login credentials in config. Script will exit.".

Definition login_failed_line : string :=
  "Error: Could not retrieve access token. Script will exit.".

(** The world in which a pass reads the console, [w1] being the world
    the due jobs left. *)
Definition prompted (w1 : world) : world :=
  with_trace w1 (trace w1 ++ [Sleep 1; Prompt prompt_text]).

(** What a pass does with the line read (lines 189-199). *)
Definition dispatch (rt : runtime) (line : string) (rest : list tick) : M unit :=
  let user_input := lower line in
  if (user_input =? "c")%string then connect_stream rt ;; main_loop rt rest
  else if (user_input =? "d")%string then disconnect_stream rt ;; main_loop rt rest
  else if (user_input =? "q")%string then print "Exiting."
  else if truthy (JStr user_input) then
    print invalid_input_text ;; main_loop rt rest
  else main_loop rt rest.

(** *** The token in use *)

(** [config] is a dict holding [token] as its authorization token. *)
Definition token_in_config (w : world) (token : json) : Prop :=
  exists o,
    config w = JObj o /\ dict_lookup "authorization_token" o = Some token.

(** The command request [e] carries [token] as its bearer token. *)
Definition bearer (rt : runtime) (token : json) (e : event) : Prop :=
  authorization e = Some ("Bearer " ++ py_str rt token).

(** From [w] to [w'], [config] stayed as it was and, if it holds
    [token], every command request added to the trace carries it. *)
Definition carries (rt : runtime) (token : json) (w w' : world) : Prop :=
  config w' = config w
  /\ (token_in_config w token ->
      exists added,
        commands (trace w') = (commands (trace w) ++ added)%list
        /\ Forall (bearer rt token) added).

(** ** Example runs *)

(** A runtime to run the script on examples. *)
Definition demo_runtime : runtime :=
  {| repr_value := fun _ => "<value>";
     str_exn := fun _ => "<error>";
     requests_ge_2_27 := true;
     at_accepts := fun s => (String.length s =? 5)%nat;
     capitalize_unicode := fun s => s |}.

(** A server that gives the same answer to every request. *)
Definition always (a : http_result) : nat -> http_result := fun _ => a.

(** A server that answers the login with [token] and everything after it
    with [a]. *)
Definition login_then (token : string) (a : http_result) : nat -> http_result :=
  fun n =>
    match n with
    | O => Response 200 (Some (JObj [("access_token", JStr token)]))
    | S _ => a
    end.

(** A server that answers the first login with token [abc], the next
    login with token [xyz], and every command with an empty object. *)
Definition rotating_server : nat -> http_result :=
  fun n =>
    match n with
    | 0%nat => Response 200 (Some (JObj [("access_token", JStr "abc")]))
    | 1%nat => Response 200 (Some (JObj [("access_token", JStr "xyz")]))
    | _ => Response 200 (Some (JObj []))
    end.

Definition noon : nat -> string := fun _ => "12:00:00".

Definition credentials : dict :=
  [("server_address", JStr "http://h"); ("username", JStr "u");
   ("password", JStr "p")].

(** The configuration of the specification's example scenario. *)
Definition full_items : dict :=
  (credentials ++ [("process_id", JStr "42"); ("connect_time", JStr "08:00");
                   ("disconnect_time", JStr "20:00")])%list.

Definition full_config : json := JObj full_items.


(** An operator typing [s] in a pass in which no job is due. *)
Definition typing (s : string) : tick := {| due := []; typed := Line s |}.

Definition demo_login (a : http_result) : outcome json * world :=
  get_access_token demo_runtime (JStr "http://h") (JStr "u") (JStr "p")
    (boot (always a) noon).

Definition demo_refresh (a : http_result) : outcome json * world :=
  refresh_access_token demo_runtime (JStr "http://h") (JStr "u") (JStr "p")
    (boot (always a) noon).


(** The world in which the loop starts: the script run on a console that
    delivers nothing. *)
Definition started (c : json) (srv : nat -> http_result) : world :=
  snd (main demo_runtime (FileJSON c) [] (boot srv noon)).

(** One pass in which the refresh job (third in the job table) is due
    and the operator then asks for a connection. *)
Definition refresh_then_connect : outcome unit * world :=
  main demo_runtime (FileJSON full_config)
    [{| due := [2%nat]; typed := Line "c" |}]
    (boot rotating_server noon).

(** ** More vocabulary: start-up and missing keys *)

(** What [schedule ... .at(t)] raises, if anything: [TypeError] for a
    value that is not a string, [ScheduleValueError] for a string it
    does not accept. *)
Definition at_error (rt : runtime) (t : json) : option exn :=
  match t with
  | JStr s => if at_accepts rt s then None else Some ScheduleValueError
  | _ => Some TypeError
  end.

(** A configured time the start-up code gets past: absent (or falsy), or
    accepted by [.at]. *)
Definition time_usable (rt : runtime) (t : json) : Prop :=
  truthy t = false \/ at_error rt t = None.

(** The job a configured time contributes to the table. *)
Definition daily_job (t : json) (j : job) : list job :=
  if truthy t then [j] else [].

(** The line start-up prints about each configured time. *)
Definition connect_line (rt : runtime) (t : json) : string :=
  if truthy t
  then "Scheduled stream connection for " ++ py_str rt t ++ " daily."
  else "Warning: 'connect_time' not found in config file.".

Definition disconnect_line (rt : runtime) (t : json) : string :=
  if truthy t
  then "Scheduled stream disconnection for " ++ py_str rt t ++ " daily."
  else "Warning: 'disconnect_time' not found in config file.".

(** The first of the three keys a stream operation subscripts that the
    dict lacks, in the order the operation reads them. *)
Definition first_missing (o : dict) : option string :=
  match dict_lookup "server_address" o with
  | None => Some "server_address"
  | Some _ =>
      match dict_lookup "process_id" o with
      | None => Some "process_id"
      | Some _ =>
          match dict_lookup "authorization_token" o with
          | None => Some "authorization_token"
          | Some _ => None
          end
      end
  end.

(** The credentials with a connect time given as a number. *)
Definition numeric_time_items : dict :=
  (credentials ++ [("connect_time", JInt 800)])%list.

(** A body that decodes to JSON but not to an object. *)
Definition not_an_object (data : json) : Prop := forall o, data <> JObj o.

(** ** Proof tools *)

Lemma append_assoc (a b c : string) : ((a ++ b) ++ c = a ++ (b ++ c))%string.
Proof. induction a as [|x a IH]; simpl; [reflexivity | now rewrite IH]. Qed.

Lemma append_empty_r (a : string) : (a ++ "" = a)%string.
Proof. induction a as [|x a IH]; simpl; [reflexivity | now rewrite IH]. Qed.

Lemma py_get_field (o : dict) (k : string) (w : world) :
  py_get (JObj o) k w = (Ok (field k o), w).
Proof. unfold py_get, field. destruct (dict_lookup k o); reflexivity. Qed.

Ltac unfold_exchange :=
  unfold try_except, bind, requests_post, requests_put, http_exchange,
    raise_for_status, response_json, json_error, print, emit, ret, raise.

(** Closes [(r, w1) = (r, w2)] for worlds built from the same updates,
    up to the bracketing of the trace. *)
Ltac same_world :=
  unfold with_trace, with_requests_made, with_clock_reads, with_config,
    with_jobs; cbn;
  repeat rewrite <- app_assoc; cbn; reflexivity.

Lemma silent_part_app (t1 t2 : list event) :
  silent_part (t1 ++ t2) = (silent_part t1 ++ silent_part t2)%list.
Proof. apply filter_app. Qed.

(** ** The login and refresh calls *)

(** C2. [refresh_access_token] hands back exactly what
    [get_access_token] hands back (the same value, or the same
    exception), for every server address, user name, password and server
    answer, and leaves the same world behind except for the lines
    printed. *)
Theorem refresh_access_token_same_result
    (rt : runtime) (server_address username password : json) (w : world) :
  fst (refresh_access_token rt server_address username password w)
  = fst (get_access_token rt server_address username password w)
  /\ same_but_prints
       (snd (refresh_access_token rt server_address username password w))
       (snd (get_access_token rt server_address username password w)).
Proof.
  unfold refresh_access_token, get_access_token, same_but_prints.
  unfold_exchange.
  destruct (answer w) as [msg | status body | e | status e]; cbn.
  - rewrite !silent_part_app. cbn. repeat split; reflexivity.
  - destruct (is_error_status status); cbn.
    + rewrite !silent_part_app. cbn. repeat split; reflexivity.
    + destruct body as [data |]; cbn.
      * destruct data; cbn; try (repeat split; reflexivity).
        destruct (dict_lookup "access_token" o) as [v |]; cbn.
        -- destruct (truthy v); cbn; rewrite !silent_part_app; cbn;
             repeat split; try reflexivity.
           now rewrite app_nil_r.
        -- rewrite !silent_part_app. cbn. repeat split; reflexivity.
      * destruct (requests_ge_2_27 rt); cbn; rewrite !silent_part_app; cbn;
          repeat split; reflexivity.
  - destruct (is_RequestException e); [| destruct (is_JSONDecodeError e)];
      cbn; rewrite ?silent_part_app; cbn; repeat split; reflexivity.
  - destruct (is_error_status status); cbn.
    + rewrite !silent_part_app. cbn. repeat split; reflexivity.
    + destruct (is_RequestException e); [| destruct (is_JSONDecodeError e)];
        cbn; rewrite ?silent_part_app; cbn; repeat split; reflexivity.
Qed.

(** [get_access_token], answer by answer. *)
Lemma get_access_token_run rt sa u p w :
  get_access_token rt sa u p w =
  let w1 := sent w (login_request rt sa u p) in
  match answer w with
  | ConnFail msg =>
      (Ok JNull,
       printed w1 ("Error during login: " ++ str_exn rt (RequestException msg)))
  | Response status body =>
      if is_error_status status then
        (Ok JNull,
         printed w1 ("Error during login: " ++ str_exn rt (HTTPError status)))
      else
        match body with
        | None =>
            (Ok JNull,
             printed w1
               (if requests_ge_2_27 rt
                then "Error during login: " ++ str_exn rt RequestsJSONDecodeError
                else "Error: Could not decode JSON response from login."))
        | Some (JObj o) =>
            if truthy (field "access_token" o)
            then (Ok (field "access_token" o), w1)
            else (Ok JNull,
                  printed w1 "Error: Access token not found in login response.")
        | Some _ => (Raised (AttributeError "get"), w1)
        end
  | CallRaises e => login_except rt "login" e w1
  | JsonRaises status e =>
      if is_error_status status then
        (Ok JNull,
         printed w1 ("Error during login: " ++ str_exn rt (HTTPError status)))
      else login_except rt "login" e w1
  end.
Proof.
  unfold get_access_token, login_request, login_except, sent, printed.
  unfold_exchange.
  destruct (answer w) as [msg | status [data |] | e | status e]; cbn;
    try reflexivity.
  - destruct (is_error_status status); cbn; [reflexivity |].
    destruct data; cbn; try reflexivity.
    unfold field. destruct (dict_lookup "access_token" o) as [v |]; cbn.
    + destruct (truthy v); reflexivity.
    + reflexivity.
  - destruct (is_error_status status); cbn; [reflexivity |].
    destruct (requests_ge_2_27 rt); reflexivity.
  - destruct (is_RequestException e); [| destruct (is_JSONDecodeError e)];
      reflexivity.
  - destruct (is_error_status status); cbn; [reflexivity |].
    destruct (is_RequestException e); [| destruct (is_JSONDecodeError e)];
      reflexivity.
Qed.

(** [refresh_access_token], answer by answer. *)
Lemma refresh_access_token_run rt sa u p w :
  refresh_access_token rt sa u p w =
  let w1 := sent w (login_request rt sa u p) in
  match answer w with
  | ConnFail msg =>
      (Ok JNull,
       printed w1 ("Error during token refresh: "
                     ++ str_exn rt (RequestException msg)))
  | Response status body =>
      if is_error_status status then
        (Ok JNull,
         printed w1 ("Error during token refresh: "
                       ++ str_exn rt (HTTPError status)))
      else
        match body with
        | None =>
            (Ok JNull,
             printed w1
               (if requests_ge_2_27 rt
                then "Error during token refresh: "
                       ++ str_exn rt RequestsJSONDecodeError
                else "Error: Could not decode JSON response from token refresh."))
        | Some (JObj o) =>
            if truthy (field "access_token" o)
            then (Ok (field "access_token" o),
                  printed w1 "Successfully refreshed access token.")
            else (Ok JNull,
                  printed w1 "Error: Access token not found in refresh response.")
        | Some _ => (Raised (AttributeError "get"), w1)
        end
  | CallRaises e => login_except rt "token refresh" e w1
  | JsonRaises status e =>
      if is_error_status status then
        (Ok JNull,
         printed w1 ("Error during token refresh: "
                       ++ str_exn rt (HTTPError status)))
      else login_except rt "token refresh" e w1
  end.
Proof.
  unfold refresh_access_token, login_request, login_except, sent, printed.
  unfold_exchange.
  destruct (answer w) as [msg | status [data |] | e | status e]; cbn;
    try reflexivity.
  - destruct (is_error_status status); cbn; [reflexivity |].
    destruct data; cbn; try reflexivity.
    unfold field. destruct (dict_lookup "access_token" o) as [v |]; cbn.
    + destruct (truthy v); reflexivity.
    + reflexivity.
  - destruct (is_error_status status); cbn; [reflexivity |].
    destruct (requests_ge_2_27 rt); reflexivity.
  - destruct (is_RequestException e); [| destruct (is_JSONDecodeError e)];
      reflexivity.
  - destruct (is_error_status status); cbn; [reflexivity |].
    destruct (is_RequestException e); [| destruct (is_JSONDecodeError e)];
      reflexivity.
Qed.

Lemma refresh_value_is_login_value rt sa u p w :
  fst (refresh_access_token rt sa u p w) = fst (get_access_token rt sa u p w).
Proof.
  rewrite get_access_token_run, refresh_access_token_run. cbv zeta.
  unfold login_except.
  destruct (answer w) as [msg | status [data |] | e | status e];
    [reflexivity | | | |].
  - destruct (is_error_status status); [reflexivity |].
    destruct data; try reflexivity.
    now destruct (truthy (field "access_token" o)).
  - now destruct (is_error_status status).
  - destruct (is_RequestException e); [| destruct (is_JSONDecodeError e)];
      reflexivity.
  - destruct (is_error_status status); [reflexivity |].
    destruct (is_RequestException e); [| destruct (is_JSONDecodeError e)];
      reflexivity.
Qed.


Lemma truthy_nonempty_string (s : string) : s <> "" -> truthy (JStr s) = true.
Proof.
  intros H. cbn. apply negb_true_iff. now apply String.eqb_neq.
Qed.

Lemma truthy_string_nonempty (s : string) : truthy (JStr s) = true -> s <> "".
Proof.
  cbn. intros H. apply negb_true_iff in H. now apply String.eqb_neq in H.
Qed.




(** X16. Whatever [get_access_token] or [refresh_access_token] returns
    other than [None] is the truthy value that the object
    [response.json()] returned holds under ["access_token"]; when that
    value is a string it is a non-empty one.  When the status is not 4xx
    or 5xx and the object [response.json()] returned holds a falsy value
    there (or nothing), both return [None] after printing their "not
    found" line. *)
Theorem returned_token_is_truthy
    (rt : runtime) (server_address username password : json) (w : world) :
  let login := get_access_token rt server_address username password w in
  let refresh := refresh_access_token rt server_address username password w in
  let request := login_request rt server_address username password in
  (forall v,
      fst login = Ok v \/ fst refresh = Ok v ->
      v <> JNull ->
      truthy v = true
      /\ (forall s, v = JStr s -> s <> "")
      /\ exists status o,
          answer w = Response status (Some (JObj o))
          /\ dict_lookup "access_token" o = Some v)
  /\ (forall status o,
      answer w = Response status (Some (JObj o)) ->
      is_error_status status = false ->
      truthy (field "access_token" o) = false ->
      (fst login = Ok JNull
       /\ trace (snd login)
          = (trace w
               ++ [request;
                   Print "Error: Access token not found in login response."])%list)
      /\ (fst refresh = Ok JNull
          /\ trace (snd refresh)
             = (trace w
                  ++ [request;
                      Print "Error: Access token not found in refresh response."])%list)).
Proof.
  cbv zeta. split.
  - intros v Hret Hv.
    assert (Hlogin : fst (get_access_token rt server_address username password w)
                     = Ok v).
    { destruct Hret as [H | H]; [exact H |].
      now rewrite <- refresh_value_is_login_value. }
    clear Hret. rewrite get_access_token_run in Hlogin. cbv zeta in Hlogin.
    unfold login_except in Hlogin.
    destruct (answer w) as [msg | status [data |] | e | status e];
      cbn in Hlogin.
    + congruence.
    + destruct (is_error_status status); cbn in Hlogin; [congruence |].
      destruct data; cbn in Hlogin; try congruence.
      destruct (truthy (field "access_token" o)) eqn:Ht; cbn in Hlogin;
        [| congruence].
      injection Hlogin as <-.
      split; [exact Ht |]. split.
      * intros s Hs. rewrite Hs in Ht. now apply truthy_string_nonempty.
      * exists status, o. split; [reflexivity |].
        unfold field in *. destruct (dict_lookup "access_token" o); congruence.
    + destruct (is_error_status status); cbn in Hlogin; congruence.
    + destruct (is_RequestException e); [| destruct (is_JSONDecodeError e)];
        cbn in Hlogin; congruence.
    + destruct (is_error_status status); cbn in Hlogin; [congruence |].
      destruct (is_RequestException e); [| destruct (is_JSONDecodeError e)];
        cbn in Hlogin; congruence.
  - intros status o Ha Hs Ht.
    rewrite get_access_token_run, refresh_access_token_run. cbv zeta.
    rewrite Ha, Hs, Ht. cbn. rewrite <- !app_assoc. repeat split.
Qed.

Lemma returned_token_is_truthy_witness :
  truthy (JStr "abc") = true
  /\ fst (demo_login (Response 200 (Some (JObj [("access_token", JStr "")]))))
     = Ok JNull.
Proof.
  pose proof (returned_token_is_truthy demo_runtime (JStr "http://h") (JStr "u")
                (JStr "p")
                (boot (always (Response 200
                         (Some (JObj [("access_token", JStr "abc")])))) noon))
    as Habc.
  pose proof (returned_token_is_truthy demo_runtime (JStr "http://h") (JStr "u")
                (JStr "p")
                (boot (always (Response 200
                         (Some (JObj [("access_token", JStr "")])))) noon))
    as Hempty.
  cbv zeta in Habc, Hempty. split.
  - apply (proj1 Habc (JStr "abc")).
    + left. reflexivity.
    + discriminate.
  - apply (proj2 Hempty 200 [("access_token", JStr "")]); reflexivity.
Defined.

(** C10 on the code.  A 200 answer whose body decodes to
    [{"access_token": 7}] makes both calls return the integer [7], which
    is not [None] and not a string, where their docstrings promise the
    token as a [str], or [None]. *)
Lemma returned_token_not_a_string :
  fst (demo_login (Response 200 (Some (JObj [("access_token", JInt 7)]))))
  = Ok (JInt 7)
  /\ fst (demo_refresh (Response 200 (Some (JObj [("access_token", JInt 7)]))))
     = Ok (JInt 7)
  /\ JInt 7 <> JNull
  /\ forall s, JInt 7 <> JStr s.
Proof. repeat split; try reflexivity; discriminate. Qed.

(** ** The command dispatcher *)

(** [send_restreamer_command] on a [{"command": verb}] payload, answer
    by answer. *)
Lemma printed_lines_nil (w : world) : printed_lines w [] = w.
Proof.
  destruct w. unfold printed_lines, with_trace. cbn. now rewrite app_nil_r.
Qed.

Lemma send_restreamer_command_run rt sa pid tok verb snap w :
  send_restreamer_command rt sa pid tok (command_payload verb) snap w =
  let w1 := sent w (command_request rt sa pid tok verb snap) in
  match answer w with
  | ConnFail msg =>
      (Ok JNull,
       printed_lines w1 [send_error_line rt pid (RequestException msg)])
  | Response status body =>
      if is_error_status status then
        (Ok JNull, printed_lines w1 [send_error_line rt pid (HTTPError status)])
      else
        match body with
        | Some reply =>
            (Ok JNull,
             printed_lines w1 [send_success_line rt pid verb; py_str rt reply])
        | None =>
            (Ok JNull,
             printed_lines w1
               [send_success_line rt pid verb;
                if requests_ge_2_27 rt
                then send_error_line rt pid RequestsJSONDecodeError
                else "Error decoding JSON response."])
        end
  | CallRaises e => send_except rt pid e w1 []
  | JsonRaises status e =>
      if is_error_status status then
        (Ok JNull, printed_lines w1 [send_error_line rt pid (HTTPError status)])
      else send_except rt pid e w1 [send_success_line rt pid verb]
  end.
Proof.
  cbv zeta.
  destruct (answer w) as [msg | status [reply |] | e | status e] eqn:Ha.
  - unfold send_restreamer_command, command_request, command_payload, sent,
      printed_lines, send_error_line. unfold_exchange. rewrite Ha. reflexivity.
  - unfold send_restreamer_command, command_request, command_payload, sent,
      printed_lines, send_error_line, send_success_line, py_getitem,
      py_capitalize. unfold_exchange. rewrite Ha. cbn.
    destruct (is_error_status status); cbn; [reflexivity | same_world].
  - unfold send_restreamer_command, command_request, command_payload, sent,
      printed_lines, send_error_line, send_success_line, py_getitem,
      py_capitalize. unfold_exchange. rewrite Ha. cbn.
    destruct (is_error_status status); cbn; [reflexivity |].
    destruct (requests_ge_2_27 rt); cbn; same_world.
  - unfold send_except. rewrite printed_lines_nil.
    unfold send_restreamer_command, command_request, command_payload, sent,
      printed_lines, send_error_line. unfold_exchange. rewrite Ha. cbn.
    destruct (is_RequestException e); [| destruct (is_JSONDecodeError e)];
      reflexivity.
  - unfold send_except.
    unfold send_restreamer_command, command_request, command_payload, sent,
      printed_lines, send_error_line, send_success_line, py_getitem,
      py_capitalize. unfold_exchange. rewrite Ha. cbn.
    destruct (is_error_status status); cbn; [reflexivity |].
    destruct (is_RequestException e); [| destruct (is_JSONDecodeError e)];
      cbn; same_world.
Qed.

(** Whatever the call does, the dispatcher makes one request and prints
    some lines; it returns [None] when the call ends in a way it
    handles. *)
Lemma send_restreamer_command_shape rt sa pid tok verb snap w :
  exists r lines,
    send_restreamer_command rt sa pid tok (command_payload verb) snap w
    = (r, printed_lines (sent w (command_request rt sa pid tok verb snap)) lines)
    /\ (handled (answer w) = true -> r = Ok JNull).
Proof.
  rewrite send_restreamer_command_run. cbv zeta. unfold send_except, handled, caught.
  destruct (answer w) as [msg | status [reply |] | e | status e];
    try destruct (is_error_status status);
    try (destruct (is_RequestException e); [| destruct (is_JSONDecodeError e)]);
    eexists _, _; (split; [reflexivity |]); cbn; intros H;
    try reflexivity; discriminate H.
Qed.


Lemma commands_app (t1 t2 : list event) :
  commands (t1 ++ t2) = (commands t1 ++ commands t2)%list.
Proof. apply filter_app. Qed.

Lemma requests_app (t1 t2 : list event) :
  requests (t1 ++ t2) = (requests t1 ++ requests t2)%list.
Proof. apply filter_app. Qed.


Lemma requests_prints (lines : list string) : requests (map Print lines) = [].
Proof. induction lines; [reflexivity | exact IHlines]. Qed.

Lemma encode_colons_app (a b : string) :
  encode_colons (a ++ b) = encode_colons a ++ encode_colons b.
Proof.
  induction a as [| c a IH]; cbn; [reflexivity |].
  destruct (Ascii.eqb c ":"); cbn; now rewrite IH.
Qed.

Lemma encode_colons_without (s : string) :
  has_colon s = false -> encode_colons s = s.
Proof.
  induction s as [| c s IH]; cbn; [reflexivity |].
  destruct (Ascii.eqb c ":"); cbn; [discriminate |].
  intros H. now rewrite IH.
Qed.

(** C8, as the code has it.  For every server address, process id, token
    and verb and either variant, [send_restreamer_command] issues exactly
    one HTTP request: a PUT to
    [{server_address}/api/v3/process/{identifier}/command] with header
    [Authorization: Bearer {token}] (next to [Content-Type]) and body
    [{"command": verb}].  The identifier is the fixed text
    [restreamer-ui%3Aingest%3A] ([restreamer-ui:ingest:] with its colons
    percent-encoded) followed by the process id as it is, with
    [_snapshot] appended exactly for the snapshot variant; it is
    [restreamer-ui:ingest:{process_id}] with each colon percent-encoded
    whenever the process id holds no colon.  The braces stand for
    Python's string formatting, which leaves a string as it is. *)
Theorem send_restreamer_command_request
    (rt : runtime) (server_address process_id token : json) (verb : string)
    (is_snapshot : bool) (w : world) :
  let r := send_restreamer_command rt server_address process_id token
             (JObj [("command", JStr verb)]) is_snapshot w in
  let suffix := if is_snapshot then "_snapshot" else "" in
  let url := py_str rt server_address ++ "/api/v3/process/"
               ++ "restreamer-ui%3Aingest%3A" ++ py_str rt process_id
               ++ suffix ++ "/command" in
  let headers := [("Content-Type", "application/json");
                  ("Authorization", "Bearer " ++ py_str rt token)] in
  requests (trace (snd r))
  = (requests (trace w)
       ++ [HttpPut url headers (JObj [("command", JStr verb)])])%list
  /\ (forall s, py_str rt (JStr s) = s)
  /\ encode_colons "restreamer-ui:ingest:" = "restreamer-ui%3Aingest%3A"
  /\ (forall s,
        has_colon s = false ->
        encoded_process_id s is_snapshot
        = "restreamer-ui%3Aingest%3A" ++ s ++ suffix).
Proof.
  cbv zeta.
  destruct (send_restreamer_command_shape rt server_address process_id token
              verb is_snapshot w) as (r & lines & E & _).
  unfold command_payload in E. rewrite E. clear E.
  split; [| split; [| split]].
  - cbn. rewrite <- app_assoc, requests_app. cbn. rewrite requests_prints.
    unfold command_request, command_url, process_identifier, command_headers,
      command_payload.
    destruct is_snapshot; cbn; rewrite ?append_assoc; cbn; reflexivity.
  - reflexivity.
  - reflexivity.
  - intros s Hs. unfold encoded_process_id.
    rewrite encode_colons_app, (encode_colons_without s Hs). cbn.
    reflexivity.
Qed.

Lemma send_restreamer_command_request_witness :
  encoded_process_id "42" true = "restreamer-ui%3Aingest%3A42_snapshot".
Proof.
  apply (proj2 (proj2 (proj2 (send_restreamer_command_request demo_runtime
                                (JStr "http://h") (JStr "42") (JStr "abc")
                                "start" true
                                (boot (always (ConnFail "down")) noon))))
           "42").
  reflexivity.
Defined.

(** C8 fails as stated: for the process id [a:b] the request goes to an
    identifier that keeps the colon of the process id, not to
    [restreamer-ui:ingest:a:b] with each colon percent-encoded. *)
Lemma process_id_colon_not_encoded :
  requests (trace (snd (send_restreamer_command demo_runtime (JStr "http://h")
                          (JStr "a:b") (JStr "abc")
                          (JObj [("command", JStr "start")]) false
                          (boot (always (Response 200 (Some (JObj [])))) noon))))
  = [HttpPut "http://h/api/v3/process/restreamer-ui%3Aingest%3Aa:b/command"
       [("Content-Type", "application/json"); ("Authorization", "Bearer abc")]
       (JObj [("command", JStr "start")])]
  /\ encoded_process_id "a:b" false = "restreamer-ui%3Aingest%3Aa%3Ab"
  /\ "restreamer-ui%3Aingest%3Aa:b" <> encoded_process_id "a:b" false.
Proof. repeat split. discriminate. Qed.




(** ** connect_stream and disconnect_stream *)

Lemma bind_ok {A B} (m : M A) (k : A -> M B) (w w' : world) (a : A) :
  m w = (Ok a, w') -> bind m k w = k a w'.
Proof. unfold bind. now intros ->. Qed.

Lemma bind_raised {A B} (m : M A) (k : A -> M B) (w w' : world) (e : exn) :
  m w = (Raised e, w') -> bind m k w = (Raised e, w').
Proof. unfold bind. now intros ->. Qed.

Lemma config_getitem_present (k : string) (o : dict) (v : json) (w : world) :
  config w = JObj o -> dict_lookup k o = Some v ->
  config_getitem k w = (Ok v, w).
Proof. unfold config_getitem, py_getitem. now intros -> ->. Qed.



Lemma connect_stream_shape rt :
  connect_stream rt
  = stream_operation rt "Connecting stream at " "Stream connection initiated."
      "start" false true.
Proof. reflexivity. Qed.

Lemma disconnect_stream_shape rt :
  disconnect_stream rt
  = stream_operation rt "Disconnecting stream at "
      "Stream disconnection initiated." "stop" true false.
Proof. reflexivity. Qed.








(** ** What no call of the script ever does

    [Blocked] arises at one place only, the start of a loop pass for
    which the console script has nothing left; and nothing after
    start-up rebinds [config], touches the job table or changes what the
    server will answer. *)

Lemma settled_refl w : settled w w.
Proof. repeat split. Qed.

Lemma settled_trans w1 w2 w3 : settled w1 w2 -> settled w2 w3 -> settled w1 w3.
Proof. unfold settled. intros (-> & -> & ->) (-> & -> & ->). repeat split. Qed.

Lemma tame_ret {A} (a : A) : tame (ret a).
Proof. split; intros w; [discriminate | apply settled_refl]. Qed.

Lemma tame_raise {A} (e : exn) : tame (@raise A e).
Proof. split; intros w; [discriminate | apply settled_refl]. Qed.

Lemma tame_emit (e : event) : tame (emit e).
Proof. split; intros w; [discriminate | repeat split]. Qed.

Lemma tame_bind {A B} (m : M A) (k : A -> M B) :
  tame m -> (forall a, tame (k a)) -> tame (bind m k).
Proof.
  intros [Ub Kp] Hk. split; intros w; unfold bind;
    specialize (Ub w); specialize (Kp w);
    destruct (m w) as [[a | e |] w1]; cbn in *; try congruence.
  - apply Hk.
  - eapply settled_trans; [exact Kp | apply Hk].
Qed.

Lemma tame_try_except {A} (body : M A) (handler : exn -> option (M A)) :
  tame body -> (forall e h, handler e = Some h -> tame h) ->
  tame (try_except body handler).
Proof.
  intros [Ub Kp] Hh. split; intros w; unfold try_except;
    specialize (Ub w); specialize (Kp w);
    destruct (body w) as [[a | e |] w1]; cbn in *; try congruence;
    destruct (handler e) as [h |] eqn:E; cbn; try congruence.
  - apply (Hh e h E).
  - eapply settled_trans; [exact Kp | apply (Hh e h E)].
Qed.

Lemma tame_http_exchange (request : event) : tame (http_exchange request).
Proof.
  split; intros w; unfold http_exchange; destruct (answer w); cbn;
    try discriminate; repeat split.
Qed.

Lemma tame_raise_for_status response : tame (raise_for_status response).
Proof.
  unfold raise_for_status.
  destruct (is_error_status (fst response)); [apply tame_raise | apply tame_ret].
Qed.

Lemma tame_response_json rt response : tame (response_json rt response).
Proof.
  unfold response_json.
  destruct (snd response) as [[j |] | e];
    [apply tame_ret | apply tame_raise | apply tame_raise].
Qed.

Lemma tame_py_get d k : tame (py_get d k).
Proof.
  unfold py_get. destruct d; try apply tame_raise.
  destruct (dict_lookup k o); apply tame_ret.
Qed.

Lemma tame_py_getitem d k : tame (py_getitem d k).
Proof.
  unfold py_getitem. destruct d; try apply tame_raise.
  destruct (dict_lookup k o); [apply tame_ret | apply tame_raise].
Qed.

Lemma tame_py_capitalize rt v : tame (py_capitalize rt v).
Proof. unfold py_capitalize. destruct v; (apply tame_raise || apply tame_ret). Qed.

Lemma tame_config_getitem k : tame (config_getitem k).
Proof.
  split; intros w; unfold config_getitem; apply (tame_py_getitem (config w) k).
Qed.

Lemma tame_strftime : tame strftime.
Proof. split; intros w; [discriminate | repeat split]. Qed.

Create HintDb tame.
#[local] Hint Resolve tame_ret tame_raise tame_emit tame_http_exchange
  tame_raise_for_status tame_response_json tame_py_get tame_py_getitem
  tame_py_capitalize tame_config_getitem tame_strftime : tame.

(** Takes a call apart along its binds, handlers and branches. *)
Ltac tame_steps :=
  repeat first
    [ apply tame_bind; [| intros ?]
    | apply tame_try_except;
      [| let e := fresh "e" in let h := fresh "h" in let E := fresh "E" in
         intros e h E;
         repeat match type of E with
                | context [if ?b then _ else _] => destruct b
                end;
         try discriminate E; injection E as <- ]
    | match goal with
      | |- tame (if ?b then _ else _) => destruct b
      end
    | solve [unfold print, requests_post, requests_put; auto with tame] ].

Lemma tame_get_access_token rt sa u p : tame (get_access_token rt sa u p).
Proof. unfold get_access_token. tame_steps. Qed.

Lemma tame_refresh_access_token rt sa u p : tame (refresh_access_token rt sa u p).
Proof. unfold refresh_access_token. tame_steps. Qed.

Lemma tame_send_restreamer_command rt sa pid tok payload snap :
  tame (send_restreamer_command rt sa pid tok payload snap).
Proof. unfold send_restreamer_command. tame_steps. Qed.

Lemma tame_send_from_config rt payload snap : tame (send_from_config rt payload snap).
Proof.
  unfold send_from_config. tame_steps.
Qed.

Lemma tame_connect_stream rt : tame (connect_stream rt).
Proof. unfold connect_stream. tame_steps. Qed.

Lemma tame_disconnect_stream rt : tame (disconnect_stream rt).
Proof. unfold disconnect_stream. tame_steps. Qed.

#[local] Hint Resolve tame_get_access_token tame_refresh_access_token
  tame_send_restreamer_command tame_send_from_config tame_connect_stream
  tame_disconnect_stream : tame.

Lemma tame_run_job rt j : tame (run_job rt j).
Proof. destruct j; cbn; tame_steps. Qed.

Lemma tame_run_jobs rt js : tame (run_jobs rt js).
Proof.
  induction js as [| j js IH]; cbn; [apply tame_ret |].
  apply tame_bind; [apply tame_run_job | intros _; exact IH].
Qed.

Lemma tame_run_pending rt due : tame (run_pending rt due).
Proof.
  split; intros w; unfold run_pending; apply (tame_run_jobs rt (pick_jobs due (jobs w))).
Qed.

Lemma tame_input prompt r : tame (input prompt r).
Proof. unfold input. destruct r; tame_steps. Qed.

Lemma tame_sleep seconds : tame (sleep seconds).
Proof. apply tame_emit. Qed.

#[local] Hint Resolve tame_run_job tame_run_jobs tame_run_pending tame_input
  tame_sleep : tame.

(** ** Start-up *)

Lemma config_get_field (k : string) (o : dict) (w : world) :
  config w = JObj o -> config_get k w = (Ok (field k o), w).
Proof. unfold config_get. intros ->. apply py_get_field. Qed.

Lemma main_on_config rt (c : json) (ticks : list tick) (w : world) :
  truthy c = true ->
  main rt (FileJSON c) ticks w
  = (startup rt ;; main_loop rt ticks) (with_config w c).
Proof.
  intros H. unfold main, load_config, bind_config.
  unfold bind at 1 2. cbn. now rewrite H.
Qed.

Lemma startup_missing_credentials rt (o : dict) (w : world) :
  config w = JObj o -> has_credentials o = false ->
  startup rt w = (Raised (SystemExit None), printed w missing_credentials_line).
Proof.
  intros Hc Hcred. unfold startup.
  rewrite (bind_ok _ _ _ _ _ (config_get_field "server_address" _ _ Hc)).
  rewrite (bind_ok _ _ _ _ _ (config_get_field "username" _ _ Hc)).
  rewrite (bind_ok _ _ _ _ _ (config_get_field "password" _ _ Hc)).
  unfold has_credentials in Hcred. rewrite Hcred.
  reflexivity.
Qed.

Lemma startup_login_failed rt (o : dict) (w w1 : world) (v : json) :
  config w = JObj o -> has_credentials o = true ->
  get_access_token rt (field "server_address" o) (field "username" o)
    (field "password" o) w = (Ok v, w1) ->
  truthy v = false ->
  startup rt w = (Raised (SystemExit None), printed w1 login_failed_line).
Proof.
  intros Hc Hcred Hlogin Hv. unfold startup.
  rewrite (bind_ok _ _ _ _ _ (config_get_field "server_address" _ _ Hc)).
  rewrite (bind_ok _ _ _ _ _ (config_get_field "username" _ _ Hc)).
  rewrite (bind_ok _ _ _ _ _ (config_get_field "password" _ _ Hc)).
  unfold has_credentials in Hcred. rewrite Hcred.
  apply bind_raised.
  rewrite (bind_ok _ _ _ _ _ Hlogin). rewrite Hv.
  reflexivity.
Qed.

(** ** The loop *)

Lemma bind_blocked_inv {A B} (m : M A) (k : A -> M B) (w w1 : world) :
  unblocked m -> bind m k w = (Blocked, w1) ->
  exists a w', m w = (Ok a, w') /\ k a w' = (Blocked, w1).
Proof.
  intros Ub. specialize (Ub w). unfold bind.
  destruct (m w) as [[a | e |] w']; cbn in *; intros H; try congruence.
  now exists a, w'.
Qed.

Lemma bind_ok_inv {A B} (m : M A) (k : A -> M B) (w w1 : world) (b : B) :
  bind m k w = (Ok b, w1) ->
  exists a w', m w = (Ok a, w') /\ k a w' = (Ok b, w1).
Proof.
  unfold bind. destruct (m w) as [[a | e |] w']; intros H; try congruence.
  now exists a, w'.
Qed.

Lemma main_loop_pass rt t rest w w1 s :
  run_pending rt (due t) w = (Ok tt, w1) -> typed t = Line s ->
  main_loop rt (t :: rest) w = dispatch rt s rest (prompted w1).
Proof.
  intros Hjobs Hs. cbn [main_loop].
  rewrite (bind_ok _ _ _ _ _ Hjobs).
  rewrite (bind_ok _ _ _ _ _ (eq_refl : sleep 1 w1 = (_, _))).
  rewrite Hs.
  assert (E : input prompt_text (Line s)
                (with_trace w1 (trace w1 ++ [Sleep 1]))
              = (Ok s, prompted w1)).
  { unfold input, prompted, emit, bind, ret. cbn. same_world. }
  rewrite (bind_ok _ _ _ _ _ E).
  reflexivity.
Qed.

(** A prefix of the console script that the loop gets through without
    quitting or raising leaves the loop at the start of the next pass. *)
Lemma main_loop_app rt pre rest w w1 :
  main_loop rt pre w = (Blocked, w1) ->
  main_loop rt (pre ++ rest) w = main_loop rt rest w1.
Proof.
  revert w. induction pre as [| t pre IH]; intros w H.
  - cbn in H. injection H as ->. reflexivity.
  - cbn [main_loop app] in *.
    apply bind_blocked_inv in H as ([] & wa & E1 & H);
      [| apply tame_run_pending].
    rewrite (bind_ok _ _ _ _ _ E1).
    apply bind_blocked_inv in H as ([] & wb & E2 & H); [| apply tame_sleep].
    rewrite (bind_ok _ _ _ _ _ E2).
    apply bind_blocked_inv in H as (line & wc & E3 & H); [| apply tame_input].
    rewrite (bind_ok _ _ _ _ _ E3).
    cbv zeta in *.
    destruct (lower line =? "c")%string.
    { apply bind_blocked_inv in H as (? & wd & E4 & H);
        [| apply tame_connect_stream].
      rewrite (bind_ok _ _ _ _ _ E4). now apply IH. }
    destruct (lower line =? "d")%string.
    { apply bind_blocked_inv in H as (? & wd & E4 & H);
        [| apply tame_disconnect_stream].
      rewrite (bind_ok _ _ _ _ _ E4). now apply IH. }
    destruct (lower line =? "q")%string.
    { discriminate H. }
    destruct (truthy (JStr (lower line))).
    { apply bind_blocked_inv in H as (? & wd & E4 & H);
        [| apply tame_emit].
      rewrite (bind_ok _ _ _ _ _ E4). now apply IH. }
    now apply IH.
Qed.

(** The loop only ends normally through a quit command. *)
Lemma main_loop_ends_on_quit rt ticks w :
  fst (main_loop rt ticks w) = Ok tt ->
  exists t s, In t ticks /\ typed t = Line s /\ lower s = "q".
Proof.
  revert w. induction ticks as [| t ticks IH]; intros w H.
  - discriminate H.
  - assert (Hnext : forall w', fst (main_loop rt ticks w') = Ok tt ->
                exists t' s, In t' (t :: ticks) /\ typed t' = Line s
                             /\ lower s = "q").
    { intros w' H'. destruct (IH w' H') as (t' & s & Hin & Ht & Hq).
      exists t', s. split; [now right | now split]. }
    destruct (main_loop rt (t :: ticks) w) as [r wz] eqn:E.
    cbn in H. subst r. cbn [main_loop] in E.
    apply bind_ok_inv in E as ([] & wa & _ & E).
    apply bind_ok_inv in E as ([] & wb & _ & E).
    apply bind_ok_inv in E as (line & wc & E3 & E).
    assert (Hline : typed t = Line line).
    { unfold input, bind, emit, ret, raise in E3.
      destruct (typed t); cbn in E3; congruence. }
    cbv zeta in E.
    destruct (lower line =? "c")%string.
    { apply bind_ok_inv in E as (? & wd & _ & E).
      apply (Hnext wd). now rewrite E. }
    destruct (lower line =? "d")%string.
    { apply bind_ok_inv in E as (? & wd & _ & E).
      apply (Hnext wd). now rewrite E. }
    destruct (lower line =? "q")%string eqn:Hq.
    { exists t, line. split; [now left |]. split; [exact Hline |].
      now apply String.eqb_eq. }
    destruct (truthy (JStr (lower line))).
    { apply bind_ok_inv in E as (? & wd & _ & E).
      apply (Hnext wd). now rewrite E. }
    apply (Hnext wc). now rewrite E.
Qed.

(** C9, as the code has it.  A pass of the loop first runs the due jobs,
    then sleeps one second, then reads one line from the console and
    lower-cases it: ["c"] calls [connect_stream] and ["d"] calls
    [disconnect_stream] before the next pass, ["q"] ends the loop, any
    other non-empty input prints the error message before the next pass,
    and empty input goes to the next pass with no message.  The loop
    ends normally only when a quit command was read. *)
Theorem main_loop_iteration (rt : runtime) :
  (forall t rest w w1 s,
      run_pending rt (due t) w = (Ok tt, w1) ->
      typed t = Line s ->
      let w2 := with_trace w1 (trace w1 ++ [Sleep 1; Prompt prompt_text]) in
      let key := lower s in
      (key = "c" ->
       main_loop rt (t :: rest) w = (connect_stream rt ;; main_loop rt rest) w2)
      /\ (key = "d" ->
          main_loop rt (t :: rest) w
          = (disconnect_stream rt ;; main_loop rt rest) w2)
      /\ (key = "q" ->
          main_loop rt (t :: rest) w = (Ok tt, printed w2 "Exiting."))
      /\ (key <> "c" -> key <> "d" -> key <> "q" -> key <> "" ->
          main_loop rt (t :: rest) w
          = main_loop rt rest (printed w2 invalid_input_text))
      /\ (key = "" -> main_loop rt (t :: rest) w = main_loop rt rest w2))
  /\ (forall ticks w,
      fst (main_loop rt ticks w) = Ok tt ->
      exists t s, In t ticks /\ typed t = Line s /\ lower s = "q").
Proof.
  split; [| apply main_loop_ends_on_quit].
  intros t rest w w1 s Hjobs Hs. cbv zeta.
  rewrite (main_loop_pass rt t rest w w1 s Hjobs Hs).
  unfold dispatch, prompted. cbv zeta.
  split; [| split; [| split; [| split]]].
  - intros ->. reflexivity.
  - intros ->. reflexivity.
  - intros ->. reflexivity.
  - intros Hc Hd Hq Hne.
    apply String.eqb_neq in Hc, Hd, Hq. rewrite Hc, Hd, Hq.
    now rewrite (truthy_nonempty_string _ Hne).
  - intros ->. reflexivity.
Qed.

Lemma main_loop_iteration_witness :
  main_loop demo_runtime [typing "x"] (boot (always (ConnFail "down")) noon)
  = (Blocked,
     printed (with_trace (boot (always (ConnFail "down")) noon)
                [Sleep 1; Prompt prompt_text])
       invalid_input_text)
  /\ exists t s,
      In t [typing "x"; typing "Q"] /\ typed t = Line s /\ lower s = "q".
Proof.
  split.
  - apply (proj1 (main_loop_iteration demo_runtime) (typing "x") []
             (boot (always (ConnFail "down")) noon)
             (boot (always (ConnFail "down")) noon) "x").
    + reflexivity.
    + reflexivity.
    + discriminate.
    + discriminate.
    + discriminate.
    + discriminate.
  - apply (proj2 (main_loop_iteration demo_runtime) [typing "x"; typing "Q"]
             (boot (always (ConnFail "down")) noon)).
    reflexivity.
Defined.

(** C9 fails as stated: the empty line is none of [c], [d], [q], yet the
    pass that reads it prints no error message; it only sleeps and
    prompts. *)
Lemma empty_input_no_error_message :
  let w := started full_config (login_then "abc" (ConnFail "down")) in
  let r := main_loop demo_runtime [typing ""] w in
  trace (snd r) = (trace w ++ [Sleep 1; Prompt prompt_text])%list
  /\ ~ In (Print invalid_input_text) (trace (snd r)).
Proof.
  split; [reflexivity |].
  cbn. intros H.
  repeat (destruct H as [H | H]; [discriminate H |]). exact H.
Qed.

(** C3, as the code has it.  When the configuration file is absent, when
    the configuration is a JSON object in which a credential (server
    address, user name or password) is missing or falsy, or when the
    first login returns no token, the process exits with nothing
    scheduled, and its exit status is 0: the script calls
    [exit()] without a code, or runs off its end.  When the operator
    enters [q] the loop ends and the exit status is 0 as well. *)
Theorem fatal_startup_and_quit_exit
    (rt : runtime) (srv : nat -> http_result) (clk : nat -> string) :
  (forall ticks,
      let r := main rt FileMissing ticks (boot srv clk) in
      exit_status (fst r) = Some 0 /\ jobs (snd r) = []
      /\ exists line, trace (snd r) = [Print line] /\ is_error_line line = true)
  /\ (forall o ticks,
      has_credentials o = false ->
      let r := main rt (FileJSON (JObj o)) ticks (boot srv clk) in
      exit_status (fst r) = Some 0 /\ jobs (snd r) = []
      /\ requests (trace (snd r)) = []
      /\ (o <> [] -> trace (snd r) = [Print missing_credentials_line]))
  /\ (forall o ticks v w1,
      has_credentials o = true ->
      get_access_token rt (field "server_address" o) (field "username" o)
        (field "password" o) (with_config (boot srv clk) (JObj o))
      = (Ok v, w1) ->
      truthy v = false ->
      let r := main rt (FileJSON (JObj o)) ticks (boot srv clk) in
      exit_status (fst r) = Some 0 /\ jobs (snd r) = []
      /\ trace (snd r) = (trace w1 ++ [Print login_failed_line])%list)
  /\ (forall c w0 pre t rest s w1 w2,
      truthy c = true ->
      startup rt (with_config (boot srv clk) c) = (Ok tt, w0) ->
      main_loop rt pre w0 = (Blocked, w1) ->
      run_pending rt (due t) w1 = (Ok tt, w2) ->
      typed t = Line s ->
      lower s = "q" ->
      let r := main rt (FileJSON c) (pre ++ t :: rest) (boot srv clk) in
      fst r = Ok tt /\ exit_status (fst r) = Some 0).
Proof.
  split; [| split; [| split]].
  - intros ticks; cbv zeta; cbn;
      (split; [reflexivity |]); (split; [reflexivity |]);
      eexists; split; reflexivity.
  - intros o ticks Hcred. cbv zeta.
    destruct o as [| kv o'].
    + cbn. repeat split. intros H. now destruct H.
    + rewrite (main_on_config rt (JObj (kv :: o')) ticks _ eq_refl).
      rewrite (bind_raised _ _ _ _ _
                 (startup_missing_credentials rt (kv :: o')
                    (with_config (boot srv clk) (JObj (kv :: o'))) eq_refl
                    Hcred)).
      repeat split.
  - intros o ticks v w1 Hcred Hlogin Hv. cbv zeta.
    assert (Ho : truthy (JObj o) = true).
    { destruct o; [discriminate Hcred | reflexivity]. }
    rewrite (main_on_config rt _ ticks _ Ho).
    rewrite (bind_raised _ _ _ _ _
               (startup_login_failed rt o
                  (with_config (boot srv clk) (JObj o)) w1 v eq_refl Hcred
                  Hlogin Hv)).
    cbn. split; [reflexivity |]. split; [| reflexivity].
    pose proof (proj2 (tame_get_access_token rt (field "server_address" o)
                         (field "username" o) (field "password" o))
                  (with_config (boot srv clk) (JObj o))) as (_ & Hj & _).
    rewrite Hlogin in Hj. exact Hj.
  - intros c w0 pre t rest s w1 w2 Hc Hstart Hpre Hjobs Hs Hq. cbv zeta.
    rewrite (main_on_config rt _ _ _ Hc).
    rewrite (bind_ok _ _ _ _ _ Hstart).
    rewrite (main_loop_app rt pre (t :: rest) w0 w1 Hpre).
    rewrite (main_loop_pass rt t rest w1 w2 s Hjobs Hs).
    unfold dispatch. cbv zeta. rewrite Hq. cbn. split; reflexivity.
Qed.

Lemma fatal_startup_and_quit_exit_witness :
  exit_status (fst (main demo_runtime FileMissing [typing "c"]
                      (boot (always (ConnFail "down")) noon))) = Some 0
  /\ exit_status (fst (main demo_runtime
                         (FileJSON (JObj [("server_address", JStr "http://h")]))
                         [typing "c"] (boot (always (ConnFail "down")) noon)))
     = Some 0
  /\ exit_status (fst (main demo_runtime (FileJSON full_config) [typing "c"]
                         (boot (always (ConnFail "down")) noon))) = Some 0
  /\ exit_status (fst (main demo_runtime (FileJSON full_config)
                         ([typing "x"] ++ typing "Q" :: [typing "c"])
                         (boot (login_then "abc" (ConnFail "down")) noon)))
     = Some 0.
Proof.
  split; [| split; [| split]].
  - apply (proj1 (fatal_startup_and_quit_exit demo_runtime
                    (always (ConnFail "down")) noon) [typing "c"]).
  - apply (proj1 (proj2 (fatal_startup_and_quit_exit demo_runtime
                           (always (ConnFail "down")) noon))
             [("server_address", JStr "http://h")] [typing "c"]);
      reflexivity.
  - apply (proj1 (proj2 (proj2 (fatal_startup_and_quit_exit demo_runtime
                                  (always (ConnFail "down")) noon)))
             full_items [typing "c"] JNull
             (snd (get_access_token demo_runtime (JStr "http://h") (JStr "u")
                     (JStr "p")
                     (with_config (boot (always (ConnFail "down")) noon)
                        full_config))));
      reflexivity.
  - apply (proj2 (proj2 (proj2 (fatal_startup_and_quit_exit demo_runtime
                                  (login_then "abc" (ConnFail "down")) noon)))
             full_config
             (started full_config (login_then "abc" (ConnFail "down")))
             [typing "x"] (typing "Q") [typing "c"] "Q"
             (snd (main_loop demo_runtime [typing "x"]
                     (started full_config (login_then "abc" (ConnFail "down")))))
             (snd (main_loop demo_runtime [typing "x"]
                     (started full_config (login_then "abc" (ConnFail "down"))))));
      reflexivity.
Defined.

(** C3 fails as stated: with the configuration file absent, with a
    credential missing, and with the first login refused, the exit
    status is 0, not a non-zero one. *)
Lemma fatal_startup_exit_status_zero :
  exit_status (fst (main demo_runtime FileMissing []
                      (boot (always (ConnFail "down")) noon))) = Some 0
  /\ exit_status (fst (main demo_runtime
                         (FileJSON (JObj [("server_address", JStr "http://h")]))
                         [] (boot (always (ConnFail "down")) noon))) = Some 0
  /\ exit_status (fst (main demo_runtime (FileJSON full_config) []
                         (boot (always (Response 401 None)) noon))) = Some 0.
Proof. repeat split. Qed.

(** ** The token that commands carry *)

(** C1 on the code.  The script logs in (token [abc]), the refresh job
    runs and logs in again (token [xyz], returned by
    [refresh_access_token] and dropped by the scheduler), and the two
    commands sent afterwards still carry [Bearer abc]. *)
Theorem refreshed_token_not_carried :
  jobs (snd refresh_then_connect)
  = [JobConnect; JobDisconnect;
     JobRefresh (JStr "http://h") (JStr "u") (JStr "p")]
  /\ fst (refresh_access_token demo_runtime (JStr "http://h") (JStr "u")
            (JStr "p")
            (with_requests_made (boot rotating_server noon) 1))
     = Ok (JStr "xyz")
  /\ requests (trace (snd refresh_then_connect))
     = [login_request demo_runtime (JStr "http://h") (JStr "u") (JStr "p");
        login_request demo_runtime (JStr "http://h") (JStr "u") (JStr "p");
        command_request demo_runtime (JStr "http://h") (JStr "42") (JStr "abc")
          "start" false;
        command_request demo_runtime (JStr "http://h") (JStr "42") (JStr "abc")
          "start" true]
  /\ map authorization (commands (trace (snd refresh_then_connect)))
     = [Some "Bearer abc"; Some "Bearer abc"].
Proof. repeat split. Qed.

(** *** Calls that respect a relation between worlds *)

Section Respect.

Variable R : world -> world -> Prop.
Hypothesis R_refl : forall w, R w w.
Hypothesis R_trans : forall w1 w2 w3, R w1 w2 -> R w2 w3 -> R w1 w3.

Lemma respects_ret {A} (a : A) : respects R (ret a).
Proof. intros w. apply R_refl. Qed.

Lemma respects_raise {A} (e : exn) : respects R (@raise A e).
Proof. intros w. apply R_refl. Qed.

Lemma respects_bind {A B} (m : M A) (k : A -> M B) :
  respects R m -> (forall a, respects R (k a)) -> respects R (bind m k).
Proof.
  intros Hm Hk w. unfold bind. specialize (Hm w).
  destruct (m w) as [[a | e |] w1]; cbn in *; try exact Hm.
  eapply R_trans; [exact Hm | apply Hk].
Qed.

Lemma respects_try_except {A} (body : M A) (handler : exn -> option (M A)) :
  respects R body -> (forall e h, handler e = Some h -> respects R h) ->
  respects R (try_except body handler).
Proof.
  intros Hb Hh w. unfold try_except. specialize (Hb w).
  destruct (body w) as [[a | e |] w1]; cbn in *; try exact Hb.
  destruct (handler e) as [h |] eqn:E; cbn; [| exact Hb].
  eapply R_trans; [exact Hb | apply (Hh e h E)].
Qed.

End Respect.

Lemma carries_refl rt token w : carries rt token w w.
Proof.
  split; [reflexivity |]. intros _. exists []. now rewrite app_nil_r.
Qed.

Lemma carries_trans rt token w1 w2 w3 :
  carries rt token w1 w2 -> carries rt token w2 w3 -> carries rt token w1 w3.
Proof.
  intros [C12 H12] [C23 H23]. split; [congruence |].
  intros Htok. destruct (H12 Htok) as (a12 & E12 & F12).
  destruct H23 as (a23 & E23 & F23).
  { destruct Htok as (o & Hc & Ht). exists o. split; congruence. }
  exists (a12 ++ a23)%list. split.
  - now rewrite E23, E12, app_assoc.
  - apply Forall_app. now split.
Qed.

Lemma carries_quiet_event rt token w e :
  is_command e = false -> carries rt token w (with_trace w (trace w ++ [e])).
Proof.
  intros He. split; [reflexivity |]. intros _. exists [].
  cbn. rewrite commands_app. cbn. now rewrite He.
Qed.

Lemma carries_emit rt token e :
  is_command e = false -> respects (carries rt token) (emit e).
Proof. intros He w. now apply carries_quiet_event. Qed.

Lemma carries_post rt token url body :
  respects (carries rt token) (requests_post url body).
Proof.
  intros w. unfold requests_post, http_exchange.
  assert (H : carries rt token w
                (with_requests_made
                   (with_trace w (trace w ++ [HttpPost url body]))
                   (S (requests_made w)))).
  { split; [reflexivity |]. intros _. exists [].
    cbn. rewrite commands_app. split; [reflexivity | constructor]. }
  destruct (answer w); exact H.
Qed.

Lemma carries_put rt token url payload :
  respects (carries rt token)
    (requests_put url (command_headers rt token) payload).
Proof.
  intros w. unfold requests_put, http_exchange.
  assert (H : carries rt token w
                (with_requests_made
                   (with_trace w
                      (trace w
                         ++ [HttpPut url (command_headers rt token) payload]))
                   (S (requests_made w)))).
  { split; [reflexivity |]. intros _.
    exists [HttpPut url (command_headers rt token) payload].
    cbn. rewrite commands_app. split; [reflexivity |].
    repeat constructor. }
  destruct (answer w); exact H.
Qed.

(** Takes a call apart as [tame_steps] does, for [carries]. *)
Create HintDb carries.
#[local] Hint Resolve carries_post carries_put : carries.

Ltac carries_steps rt token :=
  repeat first
    [ solve [auto 1 with carries nocore]
    | apply (respects_bind _ (carries_trans rt token)); [| intros ?]
    | apply (respects_try_except _ (carries_trans rt token));
      [| let e := fresh "e" in let h := fresh "h" in let E := fresh "E" in
         intros e h E;
         repeat match type of E with
                | context [if ?b then _ else _] => destruct b
                end;
         try discriminate E; injection E as <- ]
    | match goal with
      | |- respects _ (if ?b then _ else _) => destruct b
      | |- respects _ (match ?x with _ => _ end) => destruct x
      end
    | apply (respects_ret _ (carries_refl rt token))
    | apply (respects_raise _ (carries_refl rt token))
    | apply carries_emit; reflexivity ].

Lemma carries_py_get rt token d k : respects (carries rt token) (py_get d k).
Proof. unfold py_get. carries_steps rt token. Qed.

#[local] Hint Resolve carries_py_get : carries.

Lemma carries_refresh_access_token rt token sa u p :
  respects (carries rt token) (refresh_access_token rt sa u p).
Proof.
  unfold refresh_access_token, raise_for_status, response_json, print.
  carries_steps rt token.
Qed.

Lemma carries_send_restreamer_command rt token sa pid payload snap :
  respects (carries rt token)
    (send_restreamer_command rt sa pid token payload snap).
Proof.
  unfold send_restreamer_command, raise_for_status, response_json, print,
    py_getitem, py_capitalize.
  carries_steps rt token.
Qed.

Lemma config_getitem_absent (k : string) (o : dict) (w : world) :
  config w = JObj o -> dict_lookup k o = None ->
  config_getitem k w = (Raised (KeyError k), w).
Proof. unfold config_getitem, py_getitem. now intros -> ->. Qed.

Lemma carries_send_from_config rt token payload snap :
  respects (carries rt token) (send_from_config rt payload snap).
Proof.
  intros w. split.
  { apply (proj2 (tame_send_from_config rt payload snap) w). }
  intros (o & Hc & Ht). unfold send_from_config.
  assert (Hstay : exists added : list event,
             commands (trace w) = (commands (trace w) ++ added)%list
             /\ Forall (bearer rt token) added).
  { exists []. now rewrite app_nil_r. }
  destruct (dict_lookup "server_address" o) as [sa |] eqn:Hsa;
    [| now rewrite (bind_raised _ _ _ _ _ (config_getitem_absent _ _ _ Hc Hsa))].
  rewrite (bind_ok _ _ _ _ _ (config_getitem_present _ _ _ _ Hc Hsa)).
  destruct (dict_lookup "process_id" o) as [pid |] eqn:Hpid;
    [| now rewrite (bind_raised _ _ _ _ _ (config_getitem_absent _ _ _ Hc Hpid))].
  rewrite (bind_ok _ _ _ _ _ (config_getitem_present _ _ _ _ Hc Hpid)).
  rewrite (bind_ok _ _ _ _ _ (config_getitem_present _ _ _ _ Hc Ht)).
  apply (proj2 (carries_send_restreamer_command rt token sa pid payload snap w)).
  now exists o.
Qed.

Lemma carries_strftime rt token : respects (carries rt token) strftime.
Proof.
  intros w. split; [reflexivity |]. intros _. exists [].
  cbn. now rewrite app_nil_r.
Qed.

#[local] Hint Resolve carries_refresh_access_token carries_send_from_config
  carries_strftime : carries.

Lemma carries_connect_stream rt token :
  respects (carries rt token) (connect_stream rt).
Proof. unfold connect_stream, print. carries_steps rt token. Qed.

Lemma carries_disconnect_stream rt token :
  respects (carries rt token) (disconnect_stream rt).
Proof. unfold disconnect_stream, print. carries_steps rt token. Qed.

#[local] Hint Resolve carries_connect_stream carries_disconnect_stream : carries.

Lemma carries_run_job rt token j : respects (carries rt token) (run_job rt j).
Proof. destruct j; cbn [run_job]; carries_steps rt token. Qed.

Lemma carries_run_jobs rt token js : respects (carries rt token) (run_jobs rt js).
Proof.
  induction js as [| j js IH]; cbn.
  - apply (respects_ret _ (carries_refl rt token)).
  - apply (respects_bind _ (carries_trans rt token));
      [apply carries_run_job | intros _; exact IH].
Qed.

Lemma carries_run_pending rt token due :
  respects (carries rt token) (run_pending rt due).
Proof. intros w. unfold run_pending. apply carries_run_jobs. Qed.

Lemma carries_main_loop rt token ticks :
  respects (carries rt token) (main_loop rt ticks).
Proof.
  induction ticks as [| t ticks IH]; cbn [main_loop].
  - intros w. apply carries_refl.
  - unfold sleep, input, print.
    carries_steps rt token; solve [apply carries_run_pending | exact IH].
Qed.

(** However many refreshes run and whatever they return, every command
    request the loop issues carries the token that [config] held when
    the loop started. *)
Lemma loop_commands_carry_config_token rt ticks w token :
  token_in_config w token ->
  exists added,
    commands (trace (snd (main_loop rt ticks w)))
    = (commands (trace w) ++ added)%list
    /\ Forall (bearer rt token) added.
Proof. intros H. apply (proj2 (carries_main_loop rt token ticks w) H). Qed.

(** *** The token that start-up stores *)

Lemma same_config_refl w : same_config w w.
Proof. reflexivity. Qed.

Lemma same_config_trans w1 w2 w3 :
  same_config w1 w2 -> same_config w2 w3 -> same_config w1 w3.
Proof. unfold same_config. congruence. Qed.

Lemma same_config_emit e : respects same_config (emit e).
Proof. intros w. reflexivity. Qed.

Lemma same_config_add_job j : respects same_config (add_job j).
Proof. intros w. reflexivity. Qed.

Lemma same_config_config_get k : respects same_config (config_get k).
Proof.
  intros w. unfold config_get, py_get.
  destruct (config w); try reflexivity.
  destruct (dict_lookup k o); reflexivity.
Qed.

Lemma same_config_schedule_daily_at rt t j :
  respects same_config (schedule_daily_at rt t j).
Proof.
  intros w. unfold schedule_daily_at.
  destruct t; try reflexivity. destruct (at_accepts rt s); reflexivity.
Qed.

Lemma dict_lookup_set (k : string) (v : json) (o : dict) :
  dict_lookup k (dict_set k v o) = Some v.
Proof.
  induction o as [| [k' v'] o IH]; cbn.
  - now rewrite String.eqb_refl.
  - destruct (k' =? k)%string eqn:E; cbn; now rewrite E.
Qed.

(** A start-up that gets through has logged in, and leaves the value the
    login returned in [config] as the token. *)
Lemma startup_stores_login_token rt (o : dict) (w w0 : world) :
  config w = JObj o ->
  startup rt w = (Ok tt, w0) ->
  exists v w1,
    get_access_token rt (field "server_address" o) (field "username" o)
      (field "password" o) w = (Ok v, w1)
    /\ truthy v = true
    /\ token_in_config w0 v.
Proof.
  intros Hc Hs. unfold startup in Hs.
  rewrite (bind_ok _ _ _ _ _ (config_get_field "server_address" _ _ Hc)) in Hs.
  rewrite (bind_ok _ _ _ _ _ (config_get_field "username" _ _ Hc)) in Hs.
  rewrite (bind_ok _ _ _ _ _ (config_get_field "password" _ _ Hc)) in Hs.
  apply bind_ok_inv in Hs as ([] & wa & Hfirst & Hrest).
  destruct (truthy (field "server_address" o) && truthy (field "username" o)
            && truthy (field "password" o));
    [| discriminate Hfirst].
  apply bind_ok_inv in Hfirst as (v & w1 & Hlogin & Hfirst).
  destruct (truthy v) eqn:Hv; [| discriminate Hfirst].
  apply bind_ok_inv in Hfirst as ([] & w2 & Hset & Hprint).
  exists v, w1. split; [exact Hlogin |]. split; [exact Hv |].
  assert (Hc1 : config w1 = JObj o).
  { pose proof (proj2 (tame_get_access_token rt (field "server_address" o)
                         (field "username" o) (field "password" o)) w)
      as (Hcfg & _).
    rewrite Hlogin in Hcfg. cbn in Hcfg. congruence. }
  unfold config_setitem in Hset. rewrite Hc1 in Hset.
  injection Hset as <-.
  unfold print, emit in Hprint. injection Hprint as <-.
  exists (dict_set "authorization_token" v o).
  split; [| apply dict_lookup_set].
  match type of Hrest with
  | ?m ?wa = _ =>
      assert (Hkeep : respects same_config m);
      [| specialize (Hkeep wa); rewrite Hrest in Hkeep; exact Hkeep ]
  end.
  unfold print.
  repeat first
    [ apply (respects_bind _ same_config_trans); [| intros ?]
    | match goal with
      | |- respects _ (if ?b then _ else _) => destruct b
      end
    | apply same_config_emit
    | apply same_config_add_job
    | apply same_config_config_get
    | apply same_config_schedule_daily_at ].
Qed.

Lemma same_commands_refl w : same_commands w w.
Proof. reflexivity. Qed.

Lemma same_commands_trans w1 w2 w3 :
  same_commands w1 w2 -> same_commands w2 w3 -> same_commands w1 w3.
Proof. unfold same_commands. congruence. Qed.

Lemma same_commands_emit e :
  is_command e = false -> respects same_commands (emit e).
Proof.
  intros He w. unfold same_commands. cbn. rewrite commands_app. cbn.
  rewrite He. apply app_nil_r.
Qed.

Lemma same_commands_post url body :
  respects same_commands (requests_post url body).
Proof.
  intros w. unfold same_commands, requests_post, http_exchange.
  destruct (answer w); cbn; rewrite commands_app; apply app_nil_r.
Qed.

Lemma same_commands_startup rt : respects same_commands (startup rt).
Proof.
  unfold startup, get_access_token, raise_for_status, response_json, print,
    py_exit.
  repeat first
    [ apply (respects_bind _ same_commands_trans); [| intros ?]
    | apply (respects_try_except _ same_commands_trans);
      [| let e := fresh "e" in let h := fresh "h" in let E := fresh "E" in
         intros e h E;
         repeat match type of E with
                | context [if ?b then _ else _] => destruct b
                end;
         try discriminate E; injection E as <- ]
    | match goal with
      | |- respects _ (if ?b then _ else _) => destruct b
      | |- respects _ (match ?x with _ => _ end) => destruct x
      end
    | apply (respects_ret _ same_commands_refl)
    | apply (respects_raise _ same_commands_refl)
    | apply same_commands_post
    | apply same_commands_emit; reflexivity
    | intros w;
      unfold same_commands, config_get, py_get, config_setitem,
        schedule_daily_at, add_job;
      repeat match goal with
             | |- context [match ?x with _ => _ end] => destruct x
             end; reflexivity ].
Qed.

(** X13. From the login at start-up to the end of the run, every command
    request carries the token that login returned: no later refresh
    changes it. *)
Lemma commands_carry_startup_token rt (o : dict) (ticks : list tick)
    (srv : nat -> http_result) (clk : nat -> string) (w0 : world) :
  truthy (JObj o) = true ->
  startup rt (with_config (boot srv clk) (JObj o)) = (Ok tt, w0) ->
  exists v w1,
    get_access_token rt (field "server_address" o) (field "username" o)
      (field "password" o) (with_config (boot srv clk) (JObj o)) = (Ok v, w1)
    /\ Forall (bearer rt v)
         (commands (trace (snd (main rt (FileJSON (JObj o)) ticks
                                  (boot srv clk))))).
Proof.
  intros Ho Hs.
  destruct (startup_stores_login_token rt o
              (with_config (boot srv clk) (JObj o)) w0 eq_refl Hs)
    as (v & w1 & Hlogin & _ & Htok).
  exists v, w1. split; [exact Hlogin |].
  rewrite (main_on_config rt _ ticks _ Ho).
  rewrite (bind_ok _ _ _ _ _ Hs).
  destruct (loop_commands_carry_config_token rt ticks w0 v Htok)
    as (added & E & Hall).
  rewrite E.
  pose proof (same_commands_startup rt (with_config (boot srv clk) (JObj o)))
    as Hnone.
  rewrite Hs in Hnone. unfold same_commands in Hnone. cbn in Hnone.
  rewrite Hnone. exact Hall.
Qed.

(** ** Further properties of the script *)

(** *** The configuration as loaded *)

(** X1. A configuration file whose content is falsy for Python (the
    empty object, the empty list, [null], [0], the empty string, [false])
    makes the script end at once: nothing is printed, no request is sent,
    nothing is scheduled, and the exit status is 0. *)
Theorem falsy_config_ends_silently
    (rt : runtime) (c : json) (ticks : list tick) (w : world) :
  truthy c = false ->
  main rt (FileJSON c) ticks w = (Ok tt, with_config w c)
  /\ exit_status (fst (main rt (FileJSON c) ticks w)) = Some 0.
Proof.
  intros H.
  assert (E : main rt (FileJSON c) ticks w = (Ok tt, with_config w c)).
  { unfold main, load_config, bind_config, bind, ret. cbn. now rewrite H. }
  rewrite E. split; reflexivity.
Qed.

Lemma falsy_config_ends_silently_witness :
  trace (snd (main demo_runtime (FileJSON (JObj [])) [typing "c"]
                (boot (always (ConnFail "down")) noon))) = [].
Proof.
  rewrite (proj1 (falsy_config_ends_silently demo_runtime (JObj [])
                    [typing "c"] (boot (always (ConnFail "down")) noon)
                    eq_refl)).
  reflexivity.
Defined.

(** X2. A configuration file whose content is truthy but not an object
    (a non-empty list, a number, a string) makes the first [config.get]
    raise [AttributeError]: the process dies with exit status 1 before
    anything is printed, requested or scheduled. *)
Theorem non_object_config_crashes
    (rt : runtime) (c : json) (ticks : list tick) (w : world) :
  truthy c = true ->
  not_an_object c ->
  main rt (FileJSON c) ticks w
  = (Raised (AttributeError "get"), with_config w c)
  /\ exit_status (fst (main rt (FileJSON c) ticks w)) = Some 1.
Proof.
  intros Ht Hno.
  assert (E : main rt (FileJSON c) ticks w
              = (Raised (AttributeError "get"), with_config w c)).
  { rewrite (main_on_config rt c ticks w Ht).
    apply bind_raised. unfold startup. apply bind_raised.
    unfold config_get, py_get. cbn.
    destruct c; try reflexivity. now destruct (Hno o). }
  rewrite E. split; reflexivity.
Qed.

Lemma non_object_config_crashes_witness :
  exit_status (fst (main demo_runtime (FileJSON (JArr [JInt 1])) [typing "q"]
                      (boot (always (ConnFail "down")) noon))) = Some 1.
Proof.
  apply (non_object_config_crashes demo_runtime (JArr [JInt 1]) [typing "q"]
           (boot (always (ConnFail "down")) noon)).
  - reflexivity.
  - intros o H. discriminate H.
Defined.

(** *** The login calls *)

Lemma requests_sent (w : world) (request : event) :
  is_request request = true ->
  requests (trace (sent w request)) = (requests (trace w) ++ [request])%list.
Proof. intros H. cbn. rewrite requests_app. cbn. now rewrite H. Qed.

Lemma requests_printed (w : world) (line : string) :
  requests (trace (printed w line)) = requests (trace w).
Proof. cbn. rewrite requests_app. cbn. apply app_nil_r. Qed.

(** X3. Whatever the server answers, [get_access_token] and
    [refresh_access_token] each issue exactly one HTTP request, a POST
    to [{server_address}/api/login] whose body holds the user name and
    the password, and leave [config], the job table and the server as
    they were. *)
Theorem login_calls_post_once
    (rt : runtime) (server_address username password : json) (w : world) :
  let post := HttpPost (py_str rt server_address ++ "/api/login")
                (JObj [("username", username); ("password", password)]) in
  let login := get_access_token rt server_address username password w in
  let refresh := refresh_access_token rt server_address username password w in
  (requests (trace (snd login)) = (requests (trace w) ++ [post])%list
   /\ requests_made (snd login) = S (requests_made w)
   /\ settled w (snd login))
  /\ (requests (trace (snd refresh)) = (requests (trace w) ++ [post])%list
      /\ requests_made (snd refresh) = S (requests_made w)
      /\ settled w (snd refresh)).
Proof.
  cbv zeta. split.
  - split; [| split; [| apply (proj2 (tame_get_access_token rt _ _ _) w)]];
      rewrite get_access_token_run; cbv zeta; unfold login_except;
      destruct (answer w) as [msg | status [data |] | e | status e];
      try destruct (is_error_status status); try destruct data;
      try destruct (truthy (field "access_token" o));
      try (destruct (is_RequestException e); [| destruct (is_JSONDecodeError e)]);
      cbn [snd]; rewrite ?requests_printed, ?requests_sent; reflexivity.
  - split; [| split; [| apply (proj2 (tame_refresh_access_token rt _ _ _) w)]];
      rewrite refresh_access_token_run; cbv zeta; unfold login_except;
      destruct (answer w) as [msg | status [data |] | e | status e];
      try destruct (is_error_status status); try destruct data;
      try destruct (truthy (field "access_token" o));
      try (destruct (is_RequestException e); [| destruct (is_JSONDecodeError e)]);
      cbn [snd]; rewrite ?requests_printed, ?requests_sent; reflexivity.
Qed.

(** X4. Two ways an exception escapes [get_access_token] and
    [refresh_access_token] alike, because it is raised inside the [try]
    block and is neither a [RequestException] nor a
    [json.JSONDecodeError].  When the status is not 4xx or 5xx and
    [response.json()] returns JSON that is not an object (a list, a
    string, a number, [null]), the [.get] on it raises [AttributeError].
    When the status is not 4xx or 5xx and [response.json()] itself
    raises such an exception ([ValueError] for an integer of more digits
    than [int()] converts), that exception escapes.  In both cases the
    request has been made and nothing is printed. *)
Theorem login_exceptions_that_escape
    (rt : runtime) (server_address username password : json) (w : world) :
  let login := get_access_token rt server_address username password w in
  let refresh := refresh_access_token rt server_address username password w in
  let after := sent w (login_request rt server_address username password) in
  (forall status data,
      answer w = Response status (Some data) ->
      is_error_status status = false ->
      not_an_object data ->
      login = (Raised (AttributeError "get"), after)
      /\ refresh = (Raised (AttributeError "get"), after))
  /\ (forall status e,
      answer w = JsonRaises status e ->
      is_error_status status = false ->
      caught e = false ->
      login = (Raised e, after) /\ refresh = (Raised e, after)).
Proof.
  cbv zeta. rewrite get_access_token_run, refresh_access_token_run. cbv zeta.
  split.
  - intros status data Ha Hs Hno. rewrite Ha, Hs.
    destruct data; try (split; reflexivity). now destruct (Hno o).
  - intros status e Ha Hs Hc. rewrite Ha, Hs. unfold login_except.
    unfold caught in Hc. apply orb_false_iff in Hc as [-> ->].
    split; reflexivity.
Qed.

Lemma login_exceptions_that_escape_witness :
  fst (demo_login (Response 200 (Some (JArr [])))) = Raised (AttributeError "get")
  /\ fst (demo_refresh (JsonRaises 200 ValueError)) = Raised ValueError.
Proof.
  unfold demo_login, demo_refresh. split.
  - destruct (proj1 (login_exceptions_that_escape demo_runtime
                       (JStr "http://h") (JStr "u") (JStr "p")
                       (boot (always (Response 200 (Some (JArr [])))) noon))
                200 (JArr []) eq_refl eq_refl) as [-> _].
    + intros o H. discriminate H.
    + reflexivity.
  - destruct (proj2 (login_exceptions_that_escape demo_runtime
                       (JStr "http://h") (JStr "u") (JStr "p")
                       (boot (always (JsonRaises 200 ValueError)) noon))
                200 ValueError eq_refl eq_refl eq_refl) as [_ ->].
    reflexivity.
Defined.

(** *** The dispatcher *)



(** *** The stream operations *)

Lemma send_from_config_missing rt payload snap (o : dict) (k : string) (w : world) :
  config w = JObj o -> first_missing o = Some k ->
  send_from_config rt payload snap w = (Raised (KeyError k), w).
Proof.
  intros Hc Hk. unfold send_from_config, first_missing in *.
  destruct (dict_lookup "server_address" o) as [sa |] eqn:Hsa.
  - rewrite (bind_ok _ _ _ _ _ (config_getitem_present _ _ _ _ Hc Hsa)).
    destruct (dict_lookup "process_id" o) as [pid |] eqn:Hpid.
    + rewrite (bind_ok _ _ _ _ _ (config_getitem_present _ _ _ _ Hc Hpid)).
      destruct (dict_lookup "authorization_token" o) as [tok |] eqn:Htok;
        [discriminate |].
      injection Hk as <-.
      apply bind_raised. now apply (config_getitem_absent _ o).
    + injection Hk as <-.
      apply bind_raised. now apply (config_getitem_absent _ o).
  - injection Hk as <-.
    apply bind_raised. now apply (config_getitem_absent _ o).
Qed.

(** X6. When [config] lacks one of [server_address], [process_id] and
    [authorization_token], [connect_stream] and [disconnect_stream]
    raise [KeyError] for the first one missing, in that order, after
    printing their opening line and before any request is sent. *)
Theorem stream_operations_missing_key
    (rt : runtime) (o : dict) (k : string) (w : world) :
  config w = JObj o ->
  first_missing o = Some k ->
  let now := wall_clock w (clock_reads w) in
  (fst (connect_stream rt w) = Raised (KeyError k)
   /\ trace (snd (connect_stream rt w))
      = (trace w ++ [Print ("Connecting stream at " ++ now)])%list)
  /\ (fst (disconnect_stream rt w) = Raised (KeyError k)
      /\ trace (snd (disconnect_stream rt w))
         = (trace w ++ [Print ("Disconnecting stream at " ++ now)])%list).
Proof.
  intros Hc Hk. cbv zeta.
  assert (Hop : forall opening closing verb first second,
             stream_operation rt opening closing verb first second w
             = (Raised (KeyError k),
                printed (with_clock_reads w (S (clock_reads w)))
                  (opening ++ wall_clock w (clock_reads w)))).
  { intros. unfold stream_operation.
    rewrite (bind_ok _ _ _ _ _ (eq_refl : strftime w = (_, _))).
    rewrite (bind_ok _ _ _ _ _ (eq_refl : print _ _ = (_, _))).
    apply bind_raised.
    now apply (send_from_config_missing rt _ _ o). }
  rewrite connect_stream_shape, disconnect_stream_shape, !Hop.
  repeat split.
Qed.

Lemma stream_operations_missing_key_witness :
  fst (connect_stream demo_runtime
         (with_config (boot (always (ConnFail "down")) noon)
            (JObj [("server_address", JStr "http://h");
                   ("process_id", JStr "42")])))
  = Raised (KeyError "authorization_token").
Proof.
  apply (stream_operations_missing_key demo_runtime
           [("server_address", JStr "http://h"); ("process_id", JStr "42")]
           "authorization_token"
           (with_config (boot (always (ConnFail "down")) noon)
              (JObj [("server_address", JStr "http://h");
                     ("process_id", JStr "42")])));
    reflexivity.
Defined.

(** *** Start-up *)

Lemma dict_lookup_set_other (k k' : string) (v : json) (o : dict) :
  k <> k' -> dict_lookup k' (dict_set k v o) = dict_lookup k' o.
Proof.
  intros Hne. induction o as [| [k0 v0] o IH]; cbn.
  - apply String.eqb_neq in Hne. now rewrite Hne.
  - destruct (k0 =? k)%string eqn:E; cbn.
    + apply String.eqb_eq in E. subst k0.
      apply String.eqb_neq in Hne. now rewrite Hne.
    + now rewrite IH.
Qed.

Lemma field_set_other (k k' : string) (v : json) (o : dict) :
  k <> k' -> field k' (dict_set k v o) = field k' o.
Proof. intros H. unfold field. now rewrite dict_lookup_set_other. Qed.

(** Start-up up to and including the storing of the token. *)
Lemma startup_after_login rt (o : dict) (w w1 : world) (v : json) :
  config w = JObj o -> has_credentials o = true ->
  get_access_token rt (field "server_address" o) (field "username" o)
    (field "password" o) w = (Ok v, w1) ->
  truthy v = true ->
  config w1 = JObj o /\ jobs w1 = jobs w
  /\ startup rt w
     = (connect_time <- config_get "connect_time" ;;
        disconnect_time <- config_get "disconnect_time" ;;
        (if truthy connect_time then
           schedule_daily_at rt connect_time JobConnect ;;
           print ("Scheduled stream connection for " ++ py_str rt connect_time
                    ++ " daily.")
         else print "Warning: 'connect_time' not found in config file.") ;;
        (if truthy disconnect_time then
           schedule_daily_at rt disconnect_time JobDisconnect ;;
           print ("Scheduled stream disconnection for "
                    ++ py_str rt disconnect_time ++ " daily.")
         else print "Warning: 'disconnect_time' not found in config file.") ;;
        add_job (JobRefresh (field "server_address" o) (field "username" o)
                   (field "password" o)) ;;
        print "Scheduled token refresh every 10 minutes.")
         (printed (with_config w1 (JObj (dict_set "authorization_token" v o)))
            "Successfully retrieved access token.").
Proof.
  intros Hc Hcred Hlogin Hv.
  pose proof (proj2 (tame_get_access_token rt (field "server_address" o)
                       (field "username" o) (field "password" o)) w)
    as (Hc1 & Hj1 & _).
  rewrite Hlogin in Hc1, Hj1. cbn in Hc1, Hj1. rewrite Hc in Hc1.
  split; [exact Hc1 |]. split; [exact Hj1 |].
  unfold startup.
  rewrite (bind_ok _ _ _ _ _ (config_get_field "server_address" _ _ Hc)).
  rewrite (bind_ok _ _ _ _ _ (config_get_field "username" _ _ Hc)).
  rewrite (bind_ok _ _ _ _ _ (config_get_field "password" _ _ Hc)).
  unfold has_credentials in Hcred. rewrite Hcred.
  match goal with
  | |- bind ?first _ w = _ =>
      assert (Hfirst :
                first w
                = (Ok tt,
                   printed
                     (with_config w1 (JObj (dict_set "authorization_token" v o)))
                     "Successfully retrieved access token."))
  end.
  { rewrite (bind_ok _ _ _ _ _ Hlogin). rewrite Hv.
    unfold bind, config_setitem, print, emit. rewrite Hc1. reflexivity. }
  rewrite (bind_ok _ _ _ _ _ Hfirst). reflexivity.
Qed.

(** X7. When the credentials are there, the first login returns a token
    and each configured time is either absent or accepted by the
    scheduler, start-up succeeds: the token is stored in [config] under
    [authorization_token]; the job table gains the connect job if
    [connect_time] is set, then the disconnect job if [disconnect_time]
    is set, then always the refresh job with the three credentials; and
    after the login the script prints one line for the token, one for
    each time (scheduled, or a warning that it was not found) and one
    for the refresh. *)
Theorem startup_schedules
    (rt : runtime) (o : dict) (w w1 : world) (v : json) :
  config w = JObj o ->
  has_credentials o = true ->
  get_access_token rt (field "server_address" o) (field "username" o)
    (field "password" o) w = (Ok v, w1) ->
  truthy v = true ->
  time_usable rt (field "connect_time" o) ->
  time_usable rt (field "disconnect_time" o) ->
  exists w0,
    startup rt w = (Ok tt, w0)
    /\ config w0 = JObj (dict_set "authorization_token" v o)
    /\ jobs w0
       = (jobs w
            ++ daily_job (field "connect_time" o) JobConnect
            ++ daily_job (field "disconnect_time" o) JobDisconnect
            ++ [JobRefresh (field "server_address" o) (field "username" o)
                  (field "password" o)])%list
    /\ trace w0
       = (trace w1
            ++ [Print "Successfully retrieved access token.";
                Print (connect_line rt (field "connect_time" o));
                Print (disconnect_line rt (field "disconnect_time" o));
                Print "Scheduled token refresh every 10 minutes."])%list.
Proof.
  intros Hc Hcred Hlogin Hv Hct Hdt.
  destruct (startup_after_login rt o w w1 v Hc Hcred Hlogin Hv)
    as (Hc1 & Hj1 & ->).
  set (o' := dict_set "authorization_token" v o).
  set (wa := printed (with_config w1 (JObj o'))
               "Successfully retrieved access token.").
  rewrite (bind_ok _ _ _ _ _
             (config_get_field "connect_time" o' wa eq_refl)).
  rewrite (bind_ok _ _ _ _ _
             (config_get_field "disconnect_time" o' wa eq_refl)).
  unfold o'. rewrite !field_set_other by discriminate.
  unfold daily_job, connect_line, disconnect_line.
  assert (Hat : forall t, time_usable rt t -> truthy t = true ->
                  exists s, t = JStr s /\ at_accepts rt s = true).
  { intros t [Hf | Hok] Htr; [congruence |].
    destruct t; cbn in Hok; try discriminate.
    exists s. split; [reflexivity |].
    destruct (at_accepts rt s); [reflexivity | discriminate]. }
  destruct (truthy (field "connect_time" o)) eqn:Tc;
    destruct (truthy (field "disconnect_time" o)) eqn:Td;
    try (destruct (Hat _ Hct Tc) as (sc & Ec & Ac); rewrite Ec);
    try (destruct (Hat _ Hdt Td) as (sd & Ed & Ad); rewrite Ed);
    unfold bind, schedule_daily_at, add_job, print, emit;
    rewrite ?Ac, ?Ad; cbn;
    eexists; (split; [reflexivity |]); cbn; rewrite Hj1;
    repeat rewrite <- app_assoc; repeat split.
Qed.

Lemma startup_schedules_witness :
  jobs (started full_config (login_then "abc" (ConnFail "down")))
  = [JobConnect; JobDisconnect;
     JobRefresh (JStr "http://h") (JStr "u") (JStr "p")].
Proof.
  destruct (startup_schedules demo_runtime full_items
              (with_config (boot (login_then "abc" (ConnFail "down")) noon)
                 full_config)
              (snd (get_access_token demo_runtime (JStr "http://h") (JStr "u")
                      (JStr "p")
                      (with_config
                         (boot (login_then "abc" (ConnFail "down")) noon)
                         full_config)))
              (JStr "abc"))
    as (w0 & Hrun & _ & Hjobs & _).
  - reflexivity.
  - reflexivity.
  - reflexivity.
  - reflexivity.
  - right. reflexivity.
  - right. reflexivity.
  - reflexivity.
Defined.

(** X8. When the credentials are there and the first login returns a
    token, but [connect_time] is set to a value the scheduler's [.at]
    refuses, start-up dies with the scheduler's exception right after the
    token line: nothing has been scheduled, the loop is never entered,
    and the exit status is 1. *)
Theorem startup_refused_connect_time
    (rt : runtime) (o : dict) (w w1 : world) (v : json) (e : exn)
    (ticks : list tick) :
  config w = JObj o ->
  has_credentials o = true ->
  get_access_token rt (field "server_address" o) (field "username" o)
    (field "password" o) w = (Ok v, w1) ->
  truthy v = true ->
  truthy (field "connect_time" o) = true ->
  at_error rt (field "connect_time" o) = Some e ->
  let r := (startup rt ;; main_loop rt ticks) w in
  fst r = Raised e
  /\ exit_status (fst r) = Some 1
  /\ jobs (snd r) = jobs w
  /\ trace (snd r)
     = (trace w1 ++ [Print "Successfully retrieved access token."])%list.
Proof.
  intros Hc Hcred Hlogin Hv Ht He. cbv zeta.
  destruct (startup_after_login rt o w w1 v Hc Hcred Hlogin Hv)
    as (Hc1 & Hj1 & Hrun).
  set (o' := dict_set "authorization_token" v o) in *.
  set (wa := printed (with_config w1 (JObj o'))
               "Successfully retrieved access token.") in *.
  assert (Hs : startup rt w = (Raised e, wa)).
  { rewrite Hrun.
    rewrite (bind_ok _ _ _ _ _
               (config_get_field "connect_time" o' wa eq_refl)).
    rewrite (bind_ok _ _ _ _ _
               (config_get_field "disconnect_time" o' wa eq_refl)).
    unfold o'. rewrite !field_set_other by discriminate.
    rewrite Ht. apply bind_raised. apply bind_raised.
    unfold schedule_daily_at. unfold at_error in He.
    destruct (field "connect_time" o); try (injection He as <-; reflexivity).
    destruct (at_accepts rt s); [discriminate |].
    injection He as <-. reflexivity. }
  rewrite (bind_raised _ _ _ _ _ Hs). cbn.
  split; [reflexivity |]. split.
  - unfold at_error in He.
    destruct (field "connect_time" o); try (injection He as <-; reflexivity).
    destruct (at_accepts rt s); [discriminate |].
    injection He as <-. reflexivity.
  - split; [exact Hj1 | reflexivity].
Qed.

Lemma startup_refused_connect_time_witness :
  exit_status
    (fst (main demo_runtime (FileJSON (JObj numeric_time_items)) [typing "q"]
            (boot (login_then "abc" (ConnFail "down")) noon)))
  = Some 1.
Proof.
  rewrite (main_on_config demo_runtime (JObj numeric_time_items) [typing "q"]
             (boot (login_then "abc" (ConnFail "down")) noon) eq_refl).
  apply (startup_refused_connect_time demo_runtime numeric_time_items
           (with_config (boot (login_then "abc" (ConnFail "down")) noon)
              (JObj numeric_time_items))
           (snd (get_access_token demo_runtime (JStr "http://h") (JStr "u")
                   (JStr "p")
                   (with_config
                      (boot (login_then "abc" (ConnFail "down")) noon)
                      (JObj numeric_time_items))))
           (JStr "abc") TypeError [typing "q"]);
    reflexivity.
Defined.

(** *** The loop *)

(** X9. When the console is at end of input, the pass that reads it still
    runs the due jobs, sleeps and prompts, and then dies with [EOFError]:
    the loop does not outlive its console, and the exit status is 1. *)
Theorem end_of_input_ends_loop
    (rt : runtime) (t : tick) (rest : list tick) (w w1 : world) :
  run_pending rt (due t) w = (Ok tt, w1) ->
  typed t = EndOfInput ->
  main_loop rt (t :: rest) w
  = (Raised EOFError,
     with_trace w1 (trace w1 ++ [Sleep 1; Prompt prompt_text]))
  /\ exit_status (fst (main_loop rt (t :: rest) w)) = Some 1.
Proof.
  intros Hjobs Ht.
  assert (E : main_loop rt (t :: rest) w
              = (Raised EOFError,
                 with_trace w1 (trace w1 ++ [Sleep 1; Prompt prompt_text]))).
  { cbn [main_loop].
    rewrite (bind_ok _ _ _ _ _ Hjobs).
    rewrite (bind_ok _ _ _ _ _ (eq_refl : sleep 1 w1 = (_, _))).
    rewrite Ht. apply bind_raised.
    unfold input, emit, bind, raise. cbn. same_world. }
  rewrite E. split; reflexivity.
Qed.

Lemma end_of_input_ends_loop_witness :
  exit_status
    (fst (main_loop demo_runtime [{| due := []; typed := EndOfInput |}]
            (boot (always (ConnFail "down")) noon)))
  = Some 1.
Proof.
  apply (end_of_input_ends_loop demo_runtime
           {| due := []; typed := EndOfInput |} []
           (boot (always (ConnFail "down")) noon)
           (boot (always (ConnFail "down")) noon));
    reflexivity.
Defined.




Lemma settled_blocked {A} : respects settled (@blocked A).
Proof. intros w. apply settled_refl. Qed.

(** X11. However long the loop runs, whatever jobs fire, whatever the
    operator types and however the run ends, [config], the job table and
    the server are at the end what they were when the loop started: no
    job is ever added or cancelled, and no token is ever stored after
    start-up. *)
Theorem loop_keeps_config_and_jobs
    (rt : runtime) (ticks : list tick) (w : world) :
  config (snd (main_loop rt ticks w)) = config w
  /\ jobs (snd (main_loop rt ticks w)) = jobs w
  /\ server (snd (main_loop rt ticks w)) = server w.
Proof.
  change (settled w (snd (main_loop rt ticks w))).
  revert w. change (respects settled (main_loop rt ticks)).
  induction ticks as [| t ticks IH]; cbn [main_loop].
  - apply settled_blocked.
  - repeat first
      [ exact IH
      | exact (proj2 (tame_run_pending rt _))
      | exact (proj2 (tame_sleep _))
      | exact (proj2 (tame_input _ _))
      | exact (proj2 (tame_connect_stream rt))
      | exact (proj2 (tame_disconnect_stream rt))
      | exact (proj2 (tame_emit _))
      | apply (respects_bind _ settled_trans); [| intros ?]
      | match goal with
        | |- respects _ (if ?b then _ else _) => destruct b
        end ].
Qed.

(** X12. A due refresh job whose login gets a non-error status and a body
    that decodes to JSON but not to an object ends the whole process:
    the [AttributeError] leaves [refresh_access_token], the scheduler and
    the loop, before the pass sleeps or prompts, and the exit status
    is 1. *)
Theorem refresh_job_can_end_process
    (rt : runtime) (t : tick) (rest : list tick) (w : world) (i : nat)
    (server_address username password : json) (status : Z) (data : json) :
  due t = [i] ->
  nth_error (jobs w) i = Some (JobRefresh server_address username password) ->
  answer w = Response status (Some data) ->
  is_error_status status = false ->
  not_an_object data ->
  main_loop rt (t :: rest) w
  = (Raised (AttributeError "get"),
     sent w (login_request rt server_address username password))
  /\ exit_status (fst (main_loop rt (t :: rest) w)) = Some 1.
Proof.
  intros Hdue Hnth Ha Hs Hno.
  assert (E : main_loop rt (t :: rest) w
              = (Raised (AttributeError "get"),
                 sent w (login_request rt server_address username password))).
  { cbn [main_loop]. apply bind_raised.
    unfold run_pending, pick_jobs. rewrite Hdue. cbn [flat_map].
    rewrite Hnth. cbn [app run_jobs run_job].
    apply bind_raised. apply bind_raised.
    rewrite refresh_access_token_run. cbv zeta. rewrite Ha, Hs.
    destruct data; try reflexivity. now destruct (Hno o). }
  rewrite E. split; reflexivity.
Qed.

Lemma refresh_job_can_end_process_witness :
  exit_status
    (fst (main_loop demo_runtime [{| due := [2%nat]; typed := Line "q" |}]
            (started full_config
               (login_then "abc" (Response 200 (Some (JArr [])))))))
  = Some 1.
Proof.
  apply (refresh_job_can_end_process demo_runtime
           {| due := [2%nat]; typed := Line "q" |} []
           (started full_config
              (login_then "abc" (Response 200 (Some (JArr [])))))
           2%nat (JStr "http://h") (JStr "u") (JStr "p") 200 (JArr []));
    try (vm_compute; reflexivity).
  intros o H. discriminate H.
Defined.

Lemma commands_carry_startup_token_witness :
  exists v w1,
    get_access_token demo_runtime (JStr "http://h") (JStr "u") (JStr "p")
      (with_config (boot rotating_server noon) full_config) = (Ok v, w1)
    /\ Forall (bearer demo_runtime v)
         (commands (trace (snd refresh_then_connect))).
Proof.
  apply (commands_carry_startup_token demo_runtime full_items
           [{| due := [2%nat]; typed := Line "c" |}] rotating_server noon
           (started full_config rotating_server));
    reflexivity.
Defined.


(** X14. [get_access_token] and [refresh_access_token] return a token
    (anything but [None]) exactly when [requests.post] returns a
    response whose status is not 4xx or 5xx and on which
    [response.json()] returns an object whose ["access_token"] entry is
    truthy; the value returned is that entry. *)
Theorem login_returns_token_exactly_when
    (rt : runtime) (server_address username password : json) (w : world)
    (v : json) :
  let granted :=
    exists status o,
      answer w = Response status (Some (JObj o))
      /\ is_error_status status = false
      /\ dict_lookup "access_token" o = Some v
      /\ truthy v = true in
  (fst (get_access_token rt server_address username password w) = Ok v
   /\ v <> JNull
   <-> granted)
  /\ (fst (refresh_access_token rt server_address username password w) = Ok v
      /\ v <> JNull
      <-> granted).
Proof.
  cbv zeta.
  assert (Hlogin :
            fst (get_access_token rt server_address username password w) = Ok v
            /\ v <> JNull
            <-> exists status o,
                answer w = Response status (Some (JObj o))
                /\ is_error_status status = false
                /\ dict_lookup "access_token" o = Some v
                /\ truthy v = true).
  { rewrite get_access_token_run. cbv zeta. unfold login_except. split.
    - intros [Hret Hv].
      destruct (answer w) as [msg | status [data |] | e | status e];
        cbn in Hret.
      + congruence.
      + destruct (is_error_status status) eqn:Hs; cbn in Hret; [congruence |].
        destruct data; cbn in Hret; try congruence.
        destruct (truthy (field "access_token" o)) eqn:Ht; cbn in Hret;
          [| congruence].
        injection Hret as <-.
        exists status, o. split; [reflexivity |]. split; [exact Hs |].
        split; [| exact Ht].
        unfold field in *. destruct (dict_lookup "access_token" o);
          [reflexivity | discriminate Ht].
      + destruct (is_error_status status); cbn in Hret; congruence.
      + destruct (is_RequestException e); [| destruct (is_JSONDecodeError e)];
          cbn in Hret; congruence.
      + destruct (is_error_status status); cbn in Hret; [congruence |].
        destruct (is_RequestException e); [| destruct (is_JSONDecodeError e)];
          cbn in Hret; congruence.
    - intros (status & o & Ha & Hs & Hl & Ht). rewrite Ha, Hs.
      unfold field. rewrite Hl, Ht. split; [reflexivity |].
      intros ->. discriminate Ht. }
  split; [exact Hlogin |].
  now rewrite refresh_value_is_login_value.
Qed.

Lemma login_returns_token_exactly_when_witness :
  fst (demo_refresh (Response 201 (Some (JObj [("access_token", JStr "abc")]))))
  = Ok (JStr "abc")
  /\ JStr "abc" <> JNull.
Proof.
  apply (proj2 (login_returns_token_exactly_when demo_runtime (JStr "http://h")
                  (JStr "u") (JStr "p")
                  (boot (always (Response 201
                           (Some (JObj [("access_token", JStr "abc")])))) noon)
                  (JStr "abc"))).
  exists 201, [("access_token", JStr "abc")].
  repeat split; reflexivity.
Defined.


